(** * The messaging facade and the fork-context proxy of [lib/bb/__init__.py]

    A shallow embedding of the [bb] package initialiser: the
    [MultiprocessingContext] proxy, the [BBLoggerMixin] methods, the
    [BBLogger] construction, and the module-level messaging functions
    ([bb.debug], [bb.warnonce], [bb.fatal], ...).

    Modelling boundary.  Python's [logging] package is the record sink the
    module writes through: a call of [Logger.log] (or of the stock methods
    [debug]/[info]/[warning]/[error]/[critical]) is one record handed to the
    sink, and a computation is described by the list of records it hands
    over, in order, together with its outcome (a value or a raised
    exception).  What handlers and filters attached to the loggers do with
    a record afterwards is not part of this file's source.  One refusal of
    the package is modelled, since the module's own calls can meet it:
    [error] and [critical] are called with [extra=kwargs], and no record
    is made when a key of [extra] would overwrite an attribute of the
    record.

    The globals [bb.event.worker_pid], [bb.msg.loggerDefaultDomains] and
    [bb.msg.loggerDefaultLogLevel] live in sibling modules; the code here
    only reads them, so they are an environment every run is given.
    Floating-point values are not modelled. *)

From stdpp Require Import base gmap strings list.
From Stdlib Require Import ZArith Ascii DecimalString.

Local Open Scope Z_scope.

(** ** Python values *)

Inductive pyval : Type :=
  | PyNone
  | PyBool (b : bool)
  | PyInt (z : Z)
  | PyStr (s : string).

(** [isinstance(v, int)]: [bool] is a subclass of [int]. *)
Definition isinstance_int (v : pyval) : bool :=
  match v with
  | PyBool _ | PyInt _ => true
  | _ => false
  end.

(** [isinstance(v, str)]. *)
Definition isinstance_str (v : pyval) : bool :=
  match v with
  | PyStr _ => true
  | _ => false
  end.

(** Truth value of an object, as [not v] and [if v] test it. *)
Definition truthy (v : pyval) : bool :=
  match v with
  | PyNone => false
  | PyBool b => b
  | PyInt z => negb (z =? 0)
  | PyStr s => negb (String.eqb s "")
  end.

(** Keyword arguments: a name bound either to a value or to a dictionary
    of values (the [extra=kwargs] of [error] and [fatal]). *)
Inductive kwval : Type :=
  | KwVal (v : pyval)
  | KwDict (d : list (string * pyval)).

Abbreviation kwargs := (list (string * kwval)).

(** ** Exceptions and outcomes *)

Inductive exn : Type :=
  | TypeError
  | AttributeError (msg : string)
  | KeyError (key : string)
  | BBHandledException.

(** The Handled-Failure marker: the exception is (derived from)
    [BBHandledException]. *)
Definition is_handled (e : exn) : bool :=
  match e with
  | BBHandledException => true
  | _ => false
  end.

Inductive result (A : Type) : Type :=
  | Ok (a : A)
  | Raise (e : exn).

Arguments Ok {A} a.
Arguments Raise {A} e.

Definition returns_normally {A} (r : result A) : bool :=
  match r with
  | Ok _ => true
  | Raise _ => false
  end.

(** ** The [logging] levels and the record handed to the sink *)

Module logging.
Definition DEBUG : Z := 10.
Definition INFO : Z := 20.
Definition WARNING : Z := 30.
Definition ERROR : Z := 40.
Definition CRITICAL : Z := 50.
End logging.

Record LogCall : Type := mkLogCall {
  lc_logger : string;      (* name of the logger the record is logged on *)
  lc_level : Z;
  lc_msg : pyval;
  lc_args : list pyval;
  lc_kwargs : kwargs
}.

(** ** The environment and the computation type *)

Record Globals : Type := mkGlobals {
  worker_pid : pyval;                       (* bb.event.worker_pid *)
  loggerDefaultDomains : gmap string Z;     (* bb.msg.loggerDefaultDomains *)
  loggerDefaultLogLevel : Z                 (* bb.msg.loggerDefaultLogLevel *)
}.

(** A computation reads the globals, hands records to the sink and ends
    with a value or an exception. *)
Definition M (A : Type) : Type := Globals → result A * list LogCall.

#[export] Instance M_ret : MRet M := λ A a _, (Ok a, []).

#[export] Instance M_bind : MBind M := λ A B f m g,
  match m g with
  | (Ok a, out) => let '(r, out') := f a g in (r, out ++ out')
  | (Raise e, out) => (Raise e, out)
  end.

#[export] Instance M_throw : MThrow exn M := λ A e _, (Raise e, []).

(** An outcome computed without touching the sink. *)
Definition lift {A} (r : result A) : M A := λ _, (r, []).

Definition read_globals : M Globals := λ g, (Ok g, []).

Definition emit (r : LogCall) : M unit := λ _, (Ok tt, [r]).

Definition outcome {A} (m : M A) (g : Globals) : result A := fst (m g).
Definition emitted {A} (m : M A) (g : Globals) : list LogCall := snd (m g).

(** ** Strings *)

(** [s.split(sep)] for a one-character separator: the pieces between the
    occurrences of [sep]; never empty. *)
Fixpoint split (sep : ascii) (s : string) : list string :=
  match s with
  | EmptyString => [EmptyString]
  | String c rest =>
      if Ascii.eqb c sep then EmptyString :: split sep rest
      else
        match split sep rest with
        | [] => [String c EmptyString]
        | piece :: pieces => String c piece :: pieces
        end
  end.

(** [l[0]] of a list of strings; [split] never returns the empty list. *)
Definition item0 (l : list string) : string :=
  match l with
  | [] => EmptyString
  | x :: _ => x
  end.

(** [''.join(args)]: concatenation without separator; a fragment that is
    not a string is a [TypeError]. *)
Fixpoint join (args : list pyval) : result string :=
  match args with
  | [] => Ok EmptyString
  | PyStr s :: rest =>
      match join rest with
      | Ok t => Ok (s +:+ t)
      | Raise e => Raise e
      end
  | _ :: _ => Raise TypeError
  end.

(** The verbatim concatenation of text fragments. *)
Definition concat_text (frags : list string) : string :=
  foldr String.append EmptyString frags.

(** ** Loggers *)

(** What the attribute [debug] of a logger instance resolves to: the
    method of the stock [logging.Logger] class, or the instance attribute
    that [setup_bblogger] installs. *)
Inductive debug_binding : Type :=
  | StockDebug
  | DebugHelper.

Record Logger : Type := mkLogger {
  name : string;
  debug_attr : debug_binding
}.

(** The attributes a fresh [LogRecord] has are those the running
    [logging] package gives it (the set grows with its versions); their
    names are a parameter of the development. *)
Class LogRecordAttributes := record_attributes : list string.

(** [makeRecord] refuses a key of [extra] that is "message" or "asctime"
    or names an attribute the record already has. *)
Definition overwrites {L : LogRecordAttributes} (key : string) : bool :=
  bool_decide (key ∈ ["message"; "asctime"])
  || bool_decide (key ∈ record_attributes).

(** The first key of [extra], in the order of the dictionary, that
    [makeRecord] refuses. *)
Fixpoint refused_key {L : LogRecordAttributes}
    (extra : list (string * pyval)) : option string :=
  match extra with
  | [] => None
  | (key, _) :: rest => if overwrites key then Some key else refused_key rest
  end.

(** [makeRecord] on the [extra] of a call: a [KeyError] for the first
    refused key, before any record exists. *)
Definition makeRecord_extra {L : LogRecordAttributes}
    (extra : list (string * pyval)) : result unit :=
  match refused_key extra with
  | Some key => Raise (KeyError key)
  | None => Ok tt
  end.

(** The methods of the stock [logging.Logger] that the module calls.  Each
    hands one record to the sink.  Keyword arguments are passed on as
    they are; [error] and [critical], which the module calls with the
    [extra] it builds from its caller's keywords, are given that
    dictionary, and fail as [makeRecord] does when it holds a refused
    key. *)
Module Logger.
Definition log (self : Logger) (level : Z) (msg : pyval)
    (args : list pyval) (kw : kwargs) : M unit :=
  emit (mkLogCall (name self) level msg args kw).

Definition debug (self : Logger) (msg : pyval) (args : list pyval)
    (kw : kwargs) : M unit :=
  log self logging.DEBUG msg args kw.

Definition info (self : Logger) (msg : pyval) (args : list pyval)
    (kw : kwargs) : M unit :=
  log self logging.INFO msg args kw.

Definition warning (self : Logger) (msg : pyval) (args : list pyval)
    (kw : kwargs) : M unit :=
  log self logging.WARNING msg args kw.

Definition error {L : LogRecordAttributes} (self : Logger) (msg : pyval)
    (args : list pyval) (extra : list (string * pyval)) : M unit :=
  lift (makeRecord_extra extra);;
  log self logging.ERROR msg args [("extra", KwDict extra)].

Definition critical {L : LogRecordAttributes} (self : Logger) (msg : pyval)
    (args : list pyval) (extra : list (string * pyval)) : M unit :=
  lift (makeRecord_extra extra);;
  log self logging.CRITICAL msg args [("extra", KwDict extra)].
End Logger.

(** [BBLoggerMixin.setup_bblogger]:
<<
    if name.split(".")[0] == "BitBake":
        self.debug = self._debug_helper
>> *)
Definition setup_bblogger (self : Logger) (nm : string) : Logger :=
  if String.eqb (item0 (split "." nm)) "BitBake"
  then mkLogger (name self) DebugHelper
  else self.

(** [BBLogger.__init__]: [setup_bblogger(name)], then the stock
    initialiser, which stores the name and leaves [debug] alone. *)
Definition BBLogger (nm : string) : Logger :=
  setup_bblogger (mkLogger nm StockDebug) nm.

(** [BBLoggerAdapter.__init__]: [setup_bblogger(logger.name)] on an
    adapter, whose [name] is that of the wrapped logger. *)
Definition BBLoggerAdapter (logger : Logger) : Logger :=
  setup_bblogger (mkLogger (name logger) StockDebug) (name logger).

(** [mainlogger = logging.getLogger("BitBake.Main")], with [BBLogger]
    installed as the logger class. *)
Definition mainlogger : Logger := BBLogger "BitBake.Main".

(** [repr] of a tuple of values is Python's own; the text it produces is a
    parameter of the development. *)
Class Repr := repr : list pyval → string.

(** [a - v + 1] for an integer [a]: defined on [int] (and [bool]), a
    [TypeError] on [None] and on strings. *)
Definition int_sub (a : Z) (v : pyval) : result Z :=
  match v with
  | PyInt z => Ok (a - z)
  | PyBool b => Ok (a - Z.b2z b)
  | PyNone | PyStr _ => Raise TypeError
  end.

Definition int_add (r : result Z) (b : Z) : result Z :=
  match r with
  | Ok a => Ok (a + b)
  | Raise e => Raise e
  end.

(** [loglevel = logging.DEBUG - level + 1], the first line of [bbdebug]. *)
Definition loglevel_of (level : pyval) : result Z :=
  int_add (int_sub logging.DEBUG level) 1.

Section BBLoggerMixin.
Context {R : Repr}.

(** [BBLoggerMixin.bbdebug]. *)
Definition bbdebug (self : Logger) (level msg : pyval) (args : list pyval)
    (kw : kwargs) : M unit :=
  loglevel ← lift (loglevel_of level);
  g ← read_globals;
  let forward : M unit :=
    (if negb (isinstance_int level) || negb (isinstance_str msg)
     then Logger.warning mainlogger
            (PyStr ("Invalid arguments in bbdebug: "
                    +:+ repr (level :: msg :: args))) [] []
     else mret tt);;
    Logger.log self loglevel msg args kw in
  if negb (truthy (worker_pid g)) then
    if match loggerDefaultDomains g !! name self with
       | Some threshold => loglevel >? threshold
       | None => false
       end
    then mret tt
    else if loglevel <? loggerDefaultLogLevel g then mret tt
    else forward
  else forward.

(** [_debug_helper] and its siblings pass their positional arguments
    on; [bbdebug] needs at least the message.  [kw] holds the keywords
    other than [level] and [msg]: a message passed by keyword is not among
    the calls modelled. *)
Definition bbdebug_star (self : Logger) (level : pyval) (args : list pyval)
    (kw : kwargs) : M unit :=
  match args with
  | [] => mthrow TypeError
  | msg :: rest => bbdebug self level msg rest kw
  end.

Definition _debug_helper (self : Logger) (args : list pyval) (kw : kwargs)
    : M unit :=
  bbdebug_star self (PyInt 1) args kw.

Definition debug2 (self : Logger) (args : list pyval) (kw : kwargs)
    : M unit :=
  bbdebug_star self (PyInt 2) args kw.

Definition debug3 (self : Logger) (args : list pyval) (kw : kwargs)
    : M unit :=
  bbdebug_star self (PyInt 3) args kw.

(** A call of [self.debug]: the instance attribute when
    [setup_bblogger] installed one, the stock method otherwise. *)
Definition call_debug (self : Logger) (args : list pyval) (kw : kwargs)
    : M unit :=
  match debug_attr self with
  | DebugHelper => _debug_helper self args kw
  | StockDebug =>
      match args with
      | [] => mthrow TypeError
      | msg :: rest => Logger.debug self msg rest kw
      end
  end.

Definition plain (self : Logger) (msg : pyval) (args : list pyval)
    (kw : kwargs) : M unit :=
  Logger.log self (logging.INFO + 1) msg args kw.

Definition verbose (self : Logger) (msg : pyval) (args : list pyval)
    (kw : kwargs) : M unit :=
  Logger.log self (logging.INFO - 1) msg args kw.

Definition verbnote (self : Logger) (msg : pyval) (args : list pyval)
    (kw : kwargs) : M unit :=
  Logger.log self (logging.INFO + 2) msg args kw.

Definition warnonce (self : Logger) (msg : pyval) (args : list pyval)
    (kw : kwargs) : M unit :=
  Logger.log self (logging.WARNING - 1) msg args kw.

Definition erroronce (self : Logger) (msg : pyval) (args : list pyval)
    (kw : kwargs) : M unit :=
  Logger.log self (logging.ERROR - 1) msg args kw.
End BBLoggerMixin.

(** ** The module-level messaging functions *)

Module bb.
Section Messaging.
Context {R : Repr} {L : LogRecordAttributes}.

Definition plain (args : list pyval) : M unit :=
  body ← lift (join args);
  plain mainlogger (PyStr body) [] [].

(** [bb.debug(lvl, *args)]:
<<
  if isinstance(lvl, str):
      mainlogger.warning("Passed invalid debug level '%s' to bb.debug", lvl)
      args = (lvl,) + args
      lvl = 1
  mainlogger.bbdebug(lvl, ''.join(args))
>> *)
Definition debug (lvl : pyval) (args : list pyval) : M unit :=
  '(lvl, args) ←
    (if isinstance_str lvl
     then
       Logger.warning mainlogger
         (PyStr "Passed invalid debug level '%s' to bb.debug") [lvl] [];;
       mret (PyInt 1, lvl :: args)
     else mret (lvl, args));
  body ← lift (join args);
  bbdebug mainlogger lvl (PyStr body) [] [].

Definition note (args : list pyval) : M unit :=
  body ← lift (join args);
  Logger.info mainlogger (PyStr body) [] [].

Definition verbnote (args : list pyval) : M unit :=
  body ← lift (join args);
  verbnote mainlogger (PyStr body) [] [].

Definition warn (args : list pyval) : M unit :=
  body ← lift (join args);
  Logger.warning mainlogger (PyStr body) [] [].

Definition warnonce (args : list pyval) : M unit :=
  body ← lift (join args);
  warnonce mainlogger (PyStr body) [] [].

Definition error (args : list pyval) (kw : list (string * pyval))
    : M unit :=
  body ← lift (join args);
  Logger.error mainlogger (PyStr body) [] kw.

Definition erroronce (args : list pyval) : M unit :=
  body ← lift (join args);
  erroronce mainlogger (PyStr body) [] [].

(** [bb.fatal]:
<<
  mainlogger.critical(''.join(args), extra=kwargs)
  raise BBHandledException()
>> *)
Definition fatal (args : list pyval) (kw : list (string * pyval))
    : M unit :=
  body ← lift (join args);
  Logger.critical mainlogger (PyStr body) [] kw;;
  mthrow BBHandledException.
End Messaging.
End bb.

(** ** The fork-context proxy *)

Module MultiprocessingContext.
Section Proxy.
(** Python objects handed out as attributes. *)
Context {Obj : Type}.

(** The attributes of the [multiprocessing] module (the generic
    provider) and of [mp.get_context("fork")] (the fast provider). *)
Variable mp : gmap string Obj.
Variable fork_context : gmap string Obj.

(** The instance: its only attribute is [_ctx]. *)
Record t : Type := mk { _ctx : gmap string Obj }.

(** The built-ins [hasattr] and [getattr] on an attribute namespace;
    [owner] is how the error message names the object. *)
Definition hasattr (ns : gmap string Obj) (nm : string) : bool :=
  match ns !! nm with
  | Some _ => true
  | None => false
  end.

Definition getattr (owner : string) (ns : gmap string Obj) (nm : string)
    : result Obj :=
  match ns !! nm with
  | Some o => Ok o
  | None =>
      Raise (AttributeError (owner +:+ " has no attribute '" +:+ nm +:+ "'"))
  end.

(** [__init__]: binds [_ctx] to the fork context through the attribute
    setter of [object], which the class's own [__setattr__] below does not
    intercept. *)
Definition __init__ : t := mk fork_context.

(** [__getattr__]:
<<
  if hasattr(self._ctx, name):
      return getattr(self._ctx, name)
  return getattr(mp, name)
>> *)
Definition __getattr__ (self : t) (nm : string) : result Obj :=
  if hasattr (_ctx self) nm
  then getattr "'ForkContext' object" (_ctx self) nm
  else getattr "module 'multiprocessing'" mp nm.

(** [__setattr__]: [raise AttributeError(f"Unable to set attribute {name}")].
    The method is given the instance and returns the outcome together
    with the instance as it is afterwards. *)
Definition __setattr__ (self : t) (nm : string) (value : Obj)
    : result unit * t :=
  (Raise (AttributeError ("Unable to set attribute " +:+ nm)), self).

(** [multiprocessing = MultiprocessingContext()]. *)
Definition multiprocessing : t := __init__.
End Proxy.
End MultiprocessingContext.

(** ** The Dedup Cache *)

Inductive family : Type :=
  | WarnOnce
  | ErrorOnce.

Record DedupCache : Type := mkDedupCache {
  seen_warnings : gset string;
  seen_errors : gset string
}.

Definition empty_cache : DedupCache := mkDedupCache ∅ ∅.

(** Modelled from the spec: the Dedup Cache check-and-set of section 4.3,
    which this repository implements in a log filter of [bb.msg] that is
    not among the sources here ([warnonce] and [erroronce] above only tag
    the record with their level).  [shouldEmitOnce family body] returns
    true and records membership on the first occurrence, and false on
    every later call with the same family and body. *)
Definition shouldEmitOnce (fam : family) (body : string) (c : DedupCache)
    : bool * DedupCache :=
  match fam with
  | WarnOnce =>
      if decide (body ∈ seen_warnings c) then (false, c)
      else (true, mkDedupCache ({[body]} ∪ seen_warnings c) (seen_errors c))
  | ErrorOnce =>
      if decide (body ∈ seen_errors c) then (false, c)
      else (true, mkDedupCache (seen_warnings c) ({[body]} ∪ seen_errors c))
  end.

(** Modelled from the spec: the family a record belongs to is read off its
    level, the once-levels being the ones [warnonce] and [erroronce] log
    at; records of any other level do not consult the cache. *)
Definition family_of (r : LogCall) : option family :=
  if lc_level r =? logging.WARNING - 1 then Some WarnOnce
  else if lc_level r =? logging.ERROR - 1 then Some ErrorOnce
  else None.

(** Modelled from the spec: one record passing the Dedup Cache on its way
    to the sink; the cache is keyed by the text of the message body. *)
Definition deliver1 (c : DedupCache) (r : LogCall) : list LogCall * DedupCache :=
  match family_of r, lc_msg r with
  | Some fam, PyStr body =>
      let '(ok, c') := shouldEmitOnce fam body c in
      (if ok then [r] else [], c')
  | _, _ => ([r], c)
  end.

(** Modelled from the spec: the records of one process, in order, passing
    the Dedup Cache. *)
Fixpoint deliver (c : DedupCache) (rs : list LogCall) : list LogCall * DedupCache :=
  match rs with
  | [] => ([], c)
  | r :: rest =>
      let '(out, c') := deliver1 c r in
      let '(out', c'') := deliver c' rest in
      (out ++ out', c'')
  end.

(** [k] calls of the same operation, one after the other. *)
Fixpoint times (k : nat) (m : M unit) : M unit :=
  match k with
  | O => mret tt
  | S k' => m;; times k' m
  end.

(** ** Vocabulary of the statements *)

(** The warning [bbdebug] logs on the main logger about its arguments. *)
Definition invalid_arguments_record {R : Repr} (level msg : pyval)
    (args : list pyval) : LogCall :=
  mkLogCall (name mainlogger) logging.WARNING
    (PyStr ("Invalid arguments in bbdebug: " +:+ repr (level :: msg :: args)))
    [] [].

(** The warning [bb.debug] logs when its level argument is a string. *)
Definition invalid_level_record (lvl : pyval) : LogCall :=
  mkLogCall (name mainlogger) logging.WARNING
    (PyStr "Passed invalid debug level '%s' to bb.debug") [lvl] [].

(** The Domain Filter of the controller, in the words of the
    specification: a level passes for a logger name when the name has no
    table entry or the level does not exceed its threshold, and the level
    is not below the process-wide floor. *)
Definition admits (g : Globals) (lname : string) (lvl : Z) : Prop :=
  (loggerDefaultDomains g !! lname = None ∨
   ∃ threshold, loggerDefaultDomains g !! lname = Some threshold ∧
                lvl ≤ threshold) ∧
  loggerDefaultLogLevel g ≤ lvl.

(** A level is suppressed for a logger name when it exceeds the name's
    threshold or lies below the floor. *)
Definition suppresses (g : Globals) (lname : string) (lvl : Z) : Prop :=
  (∃ threshold, loggerDefaultDomains g !! lname = Some threshold ∧
                threshold < lvl) ∨
  lvl < loggerDefaultLogLevel g.

(** The part of the cache that belongs to a family. *)
Definition seen (fam : family) (c : DedupCache) : gset string :=
  match fam with
  | WarnOnce => seen_warnings c
  | ErrorOnce => seen_errors c
  end.

(** A record of the given once-family carrying the given body. *)
Definition once_record (fam : family) (body : string) (r : LogCall) : bool :=
  match family_of r, lc_msg r with
  | Some WarnOnce, PyStr b =>
      match fam with WarnOnce => String.eqb b body | ErrorOnce => false end
  | Some ErrorOnce, PyStr b =>
      match fam with ErrorOnce => String.eqb b body | WarnOnce => false end
  | _, _ => false
  end.

(** The segment of a dotted name before its first separator. *)
Fixpoint before (sep : ascii) (s : string) : string :=
  match s with
  | EmptyString => EmptyString
  | String c rest =>
      if Ascii.eqb c sep then EmptyString else String c (before sep rest)
  end.

(** The separator does not occur in the string. *)
Fixpoint free_of (sep : ascii) (s : string) : bool :=
  match s with
  | EmptyString => true
  | String c rest => negb (Ascii.eqb c sep) && free_of sep rest
  end.

(** ** The rest of the package initialiser *)

(** Exceptions of the code below that [exn] does not list. *)
Inductive exc : Type :=
  | Std (e : exn)
  | RuntimeError (msg : string)
  | IndexError
  | ModuleNotFoundError (nm : string).

Inductive res (A : Type) : Type :=
  | Done (a : A)
  | Fail (e : exc).

Arguments Done {A} a.
Arguments Fail {A} e.

(** *** The interpreter version test *)

(** The number an [int] or a [bool] stands for. *)
Definition int_value (v : pyval) : option Z :=
  match v with
  | PyInt z => Some z
  | PyBool b => Some (Z.b2z b)
  | PyNone | PyStr _ => None
  end.

(** [x == y] on values: numbers compare by value ([True == 1]), strings
    by content, and values of different kinds are unequal. *)
Definition py_eq (x y : pyval) : bool :=
  match int_value x, int_value y with
  | Some a, Some b => a =? b
  | _, _ =>
      match x, y with
      | PyNone, PyNone => true
      | PyStr s, PyStr t => String.eqb s t
      | _, _ => false
      end
  end.

(** [x < y] on values: defined between numbers and between strings, a
    [TypeError] otherwise. *)
Definition py_lt (x y : pyval) : result bool :=
  match int_value x, int_value y with
  | Some a, Some b => Ok (a <? b)
  | _, _ =>
      match x, y with
      | PyStr s, PyStr t => Ok (String.ltb s t)
      | _, _ => Raise TypeError
      end
  end.

(** [a < b] on tuples: the first pair of unequal items decides; when one
    tuple is a prefix of the other, the shorter one is the smaller. *)
Fixpoint tuple_lt (a b : list pyval) : result bool :=
  match a, b with
  | [], [] => Ok false
  | [], _ :: _ => Ok true
  | _ :: _, [] => Ok false
  | x :: a', y :: b' => if py_eq x y then tuple_lt a' b' else py_lt x y
  end.

(** What the first lines of the module do besides raising. *)
Inductive prelude_effect : Type :=
  | LoadLibrary (soname : string).

(** Lines 14 to 24:
<<
  if sys.version_info < (3, 9, 0):
      raise RuntimeError("Sorry, python 3.9.0 or later is required ...")
  if sys.version_info < (3, 10, 0):
      import ctypes
      libgcc_s = ctypes.CDLL('libgcc_s.so.1')
>> *)
Definition version_check (version_info : list pyval)
    : res unit * list prelude_effect :=
  match tuple_lt version_info [PyInt 3; PyInt 9; PyInt 0] with
  | Raise e => (Fail (Std e), [])
  | Ok true =>
      (Fail (RuntimeError
         "Sorry, python 3.9.0 or later is required for this version of bitbake"),
       [])
  | Ok false =>
      match tuple_lt version_info [PyInt 3; PyInt 10; PyInt 0] with
      | Raise e => (Fail (Std e), [])
      | Ok true => (Done tt, [LoadLibrary "libgcc_s.so.1"])
      | Ok false => (Done tt, [])
      end
  end.

(** [sys.version_info]: major, minor, micro, release level, serial. *)
Definition version_info_of (major minor micro : Z) (releaselevel : string)
    (serial : Z) : list pyval :=
  [PyInt major; PyInt minor; PyInt micro; PyStr releaselevel; PyInt serial].

(** *** The package logger *)

(** [logger = logging.getLogger("BitBake")] and the level
    [logger.setLevel(logging.DEBUG - 2)] gives it. *)
Definition logger : Logger := BBLogger "BitBake".

Definition logger_level : Z := logging.DEBUG - 2.

(** *** [PrefixLoggerAdapter] *)

(** [str(v)], which [%s] applies to its argument. *)
Definition py_str (v : pyval) : string :=
  match v with
  | PyNone => "None"
  | PyBool true => "True"
  | PyBool false => "False"
  | PyInt z => NilZero.string_of_int (Z.to_int z)
  | PyStr s => s
  end.

Module PrefixLoggerAdapter.
(** The adapter: the logger view that [BBLoggerAdapter.__init__] (the
    base class, since [logging.LoggerAdapter] was rebound to it) sets up,
    and the prefix. *)
Record t : Type := mk {
  adapter : Logger;
  __msg_prefix : pyval
}.

(** [__init__(self, prefix, logger)]:
<<
  super().__init__(logger, {})
  self.__msg_prefix = prefix
>> *)
Definition __init__ (prefix : pyval) (logger : Logger) : t :=
  mk (BBLoggerAdapter logger) prefix.

(** [process]: [return "%s%s" % (self.__msg_prefix, msg), kwargs]. *)
Definition process (self : t) (msg : pyval) (kw : kwargs) : pyval * kwargs :=
  (PyStr (py_str (__msg_prefix self) +:+ py_str msg), kw).
End PrefixLoggerAdapter.

(** *** [deprecated] and [deprecate_import] *)

Module deprecation.
Section Deprecation.
(** Arguments and results of the callables. *)
Context {A B : Type}.

(** A call of [warnings.warn]. *)
Record warning : Type := mkWarning {
  w_message : string;
  w_category : string;
  w_stacklevel : Z
}.

(** A callable object: the attributes [deprecated] copies, and what a
    call does: the warnings it issues, in order, and its result. *)
Record pyfunc : Type := mkFunc {
  __name__ : string;
  __doc__ : pyval;
  __dict__ : gmap string pyval;
  call : A → list warning * B
}.

(** [deprecated(func, name=None, advice="")]:
<<
  if advice:
      advice = ": %s" % advice
  if name is None:
      name = func.__name__
  def newFunc(...):
      warnings.warn("Call to deprecated function %s%s." % (name, advice),
                    category=DeprecationWarning, stacklevel=2)
      return func(...)
  newFunc.__name__ = func.__name__
  newFunc.__doc__ = func.__doc__
  newFunc.__dict__.update(func.__dict__)
  return newFunc
>> *)
Definition deprecated (func : pyfunc) (name : option string)
    (advice : string) : pyfunc :=
  let advice :=
    if negb (String.eqb advice "") then ": " +:+ advice else advice in
  let name :=
    match name with
    | None => __name__ func
    | Some n => n
    end in
  let newFunc (a : A) : list warning * B :=
    let '(issued, b) := call func a in
    (mkWarning ("Call to deprecated function " +:+ name +:+ advice +:+ ".")
       "DeprecationWarning" 2 :: issued, b) in
  mkFunc (__name__ func) (__doc__ func) (__dict__ func ∪ ∅) newFunc.

(** [renames[position]]. *)
Definition index (renames : list string) (position : nat) : res string :=
  match renames !! position with
  | Some newname => Done newname
  | None => Fail IndexError
  end.

(** The name an object is installed under:
<<
  if renames:
      newname = renames[position]
  else:
      newname = objname
>> *)
Definition newname_of (renames : option (list string)) (position : nat)
    (objname : string) : res string :=
  match renames with
  | Some (r :: rs) => index (r :: rs) position
  | Some [] | None => Done objname
  end.

(** The wrapper [deprecate_import] makes for an object of the source
    module:
<<
  deprecated(obj, "{0}.{1}".format(current, objname),
             "Please use {0}.{1} instead".format(modulename, objname))
>> *)
Definition wrapper (current modulename : string) (obj : pyfunc)
    (objname : string) : pyfunc :=
  deprecated obj (Some (current +:+ "." +:+ objname))
    ("Please use " +:+ modulename +:+ "." +:+ objname +:+ " instead").

(** The loop of [deprecate_import] over [enumerate(fromlist)], from the
    given position on.  [modules] is [sys.modules]; the source module is
    read through it at every turn, since it may be the very module that
    [setattr] writes to. *)
Fixpoint deprecate_loop (current modulename : string)
    (renames : option (list string)) (position : nat)
    (fromlist : list string) (modules : gmap string (gmap string pyfunc))
    : res unit * gmap string (gmap string pyfunc) :=
  match fromlist with
  | [] => (Done tt, modules)
  | objname :: rest =>
      match modules !! modulename with
      | None => (Fail (ModuleNotFoundError modulename), modules)
      | Some module =>
          match module !! objname with
          | None =>
              (Fail (Std (AttributeError
                 ("module '" +:+ modulename +:+ "' has no attribute '"
                  +:+ objname +:+ "'"))), modules)
          | Some obj =>
              let newobj := wrapper current modulename obj objname in
              match newname_of renames position objname with
              | Fail e => (Fail e, modules)
              | Done newname =>
                  match modules !! current with
                  | None => (Fail (Std (KeyError current)), modules)
                  | Some target =>
                      deprecate_loop current modulename renames (S position)
                        rest
                        (<[current := <[newname := newobj]> target]> modules)
                  end
              end
          end
      end
  end.

(** What the import system does for [__import__] when there is
    something to import: whether it fails, and [sys.modules] as it leaves
    it. *)
Class Importer :=
  import_other :
    string → list string → gmap string (gmap string pyfunc) →
    res unit * gmap string (gmap string pyfunc).

(** [__import__(modulename, fromlist=fromlist)].  When the module is
    loaded and has every listed name as an attribute, nothing is
    imported.  Otherwise the import system is at work: it loads the
    module, or imports a listed name that is a submodule of the package
    and binds it there. *)
Definition __import__ {I : Importer} (modulename : string)
    (fromlist : list string) (modules : gmap string (gmap string pyfunc))
    : res unit * gmap string (gmap string pyfunc) :=
  match modules !! modulename with
  | Some module =>
      if forallb (λ objname, bool_decide (is_Some (module !! objname)))
           fromlist
      then (Done tt, modules)
      else import_other modulename fromlist modules
  | None => import_other modulename fromlist modules
  end.

(** [deprecate_import(current, modulename, fromlist, renames=None)]: the
    import, then the loop on [sys.modules] as the import left it. *)
Definition deprecate_import {I : Importer} (current modulename : string)
    (fromlist : list string) (renames : option (list string))
    (modules : gmap string (gmap string pyfunc))
    : res unit * gmap string (gmap string pyfunc) :=
  match __import__ modulename fromlist modules with
  | (Fail e, modules') => (Fail e, modules')
  | (Done _, modules') =>
      deprecate_loop current modulename renames 0 fromlist modules'
  end.

(** The namespace of the target module once the objects of [fromlist]
    have been installed one after the other, from the given position on;
    [source] is the namespace they are read from. *)
Fixpoint installs (current modulename : string)
    (renames : option (list string)) (position : nat)
    (source : gmap string pyfunc) (fromlist : list string)
    (target : gmap string pyfunc) : gmap string pyfunc :=
  match fromlist with
  | [] => target
  | objname :: rest =>
      match source !! objname, newname_of renames position objname with
      | Some obj, Done newname =>
          installs current modulename renames (S position) source rest
            (<[newname := wrapper current modulename obj objname]> target)
      | _, _ => target
      end
  end.
End Deprecation.
End deprecation.

(** ** Sample inputs *)

(** The controller with the floor at NOTE and an empty Domain Filter Table,
    a controller with a table entry for the main logger, and a worker. *)
Definition sample_primary : Globals := mkGlobals (PyInt 0) ∅ logging.INFO.

Definition sample_primary_domain : Globals :=
  mkGlobals (PyInt 0) {[ "BitBake.Main" := 9 ]} 0.

Definition sample_worker : Globals :=
  mkGlobals (PyInt 4242) {[ "BitBake.Main" := 0 ]} logging.INFO.

(** The attributes of a [LogRecord] of Python 3.9, used to run the
    examples. *)
Definition sample_attributes : LogRecordAttributes :=
  ["name"; "msg"; "args"; "levelname"; "levelno"; "pathname"; "filename";
   "module"; "exc_info"; "exc_text"; "stack_info"; "lineno"; "funcName";
   "created"; "msecs"; "relativeCreated"; "thread"; "threadName";
   "processName"; "process"].

(** A rendering of tuples used to run the examples. *)
Definition sample_repr : Repr := λ l, "(...)"%string.

(** Providers of the proxy: the fork context defines [Lock], the
    [multiprocessing] module defines [Lock] and [Manager]. *)
Definition sample_fork : gmap string string := {[ "Lock" := "fork.Lock" ]}.

Definition sample_mp : gmap string string :=
  {[ "Lock" := "mp.Lock"; "Manager" := "mp.Manager" ]}.

(** A callable of a module [bb.utils], and [sys.modules] holding that
    module and an empty module [bb]. *)
Definition sample_func : deprecation.pyfunc (A := Z) (B := Z) :=
  deprecation.mkFunc "which" (PyStr "Find a file.") ∅ (λ a, ([], a + 1)).

Definition sample_modules
    : gmap string (gmap string (deprecation.pyfunc (A := Z) (B := Z))) :=
  {[ "bb.utils" := {[ "which" := sample_func ]}; "bb" := ∅ ]}.

(** An import system with nothing to import besides the loaded
    modules. *)
Definition sample_importer : deprecation.Importer (A := Z) (B := Z) :=
  λ modulename fromlist modules,
    match modules !! modulename with
    | Some _ => (Done tt, modules)
    | None => (Fail (ModuleNotFoundError modulename), modules)
    end.

(** ** Properties *)

(** *** Running computations *)

Lemma run_bind {A B} (m : M A) (f : A → M B) (g : Globals) :
  (m ≫= f) g =
  match m g with
  | (Ok a, out) => (fst (f a g), out ++ snd (f a g))
  | (Raise e, out) => (Raise e, out)
  end.
Proof.
  unfold mbind, M_bind. destruct (m g) as [[a|e] out]; [|done].
  by destruct (f a g).
Qed.

Lemma run_ret {A} (a : A) (g : Globals) : mret (M := M) a g = (Ok a, []).
Proof. reflexivity. Qed.

Lemma run_lift_bind {A B} (r : result A) (f : A → M B) (g : Globals) :
  (lift r ≫= f) g =
  match r with
  | Ok a => f a g
  | Raise e => (Raise e, [])
  end.
Proof.
  rewrite run_bind. unfold lift. destruct r as [a|e]; [|done].
  by destruct (f a g).
Qed.

Lemma join_text (frags : list string) :
  join (PyStr <$> frags) = Ok (concat_text frags).
Proof.
  induction frags as [|s frags IH]; [done|].
  cbn. by rewrite IH.
Qed.

Lemma name_mainlogger : name mainlogger = "BitBake.Main".
Proof. reflexivity. Qed.

(** *** The severity levels *)

Lemma loglevel_of_int (n : Z) : loglevel_of (PyInt n) = Ok (logging.DEBUG - n + 1).
Proof. reflexivity. Qed.

(** C8: the levels the mixin logs at are PLAIN = INFO + 1,
    VERBOSE = INFO - 1, VERBNOTE = INFO + 2 (above PLAIN),
    WARNONCE = WARNING - 1, ERRORONCE = ERROR - 1 and
    DEBUG(n) = DEBUG - n + 1; for positive n the DEBUG(n) levels decrease
    strictly as n grows and all lie below INFO. *)
Theorem severity_levels (self : Logger) (msg : pyval) (args : list pyval)
    (kw : kwargs) (g : Globals) (n m : Z) :
  1 ≤ n → n < m →
  lc_level <$> emitted (plain self msg args kw) g = [logging.INFO + 1] ∧
  lc_level <$> emitted (verbose self msg args kw) g = [logging.INFO - 1] ∧
  lc_level <$> emitted (verbnote self msg args kw) g = [logging.INFO + 2] ∧
  logging.INFO + 1 < logging.INFO + 2 ∧
  lc_level <$> emitted (warnonce self msg args kw) g = [logging.WARNING - 1] ∧
  lc_level <$> emitted (erroronce self msg args kw) g = [logging.ERROR - 1] ∧
  ∃ dn dm,
    loglevel_of (PyInt n) = Ok dn ∧ loglevel_of (PyInt m) = Ok dm ∧
    dn = logging.DEBUG - n + 1 ∧ dm = logging.DEBUG - m + 1 ∧
    dm < dn ∧ dn < logging.INFO ∧ dm < logging.INFO.
Proof.
  intros Hn Hnm. repeat split; try done.
  exists (logging.DEBUG - n + 1), (logging.DEBUG - m + 1).
  rewrite !loglevel_of_int. unfold logging.DEBUG, logging.INFO.
  repeat split; lia.
Qed.

Lemma severity_levels_witness :
  1 ≤ 1 ∧ 1 < 3 ∧
  loglevel_of (PyInt 1) = Ok 10 ∧ loglevel_of (PyInt 3) = Ok 8 ∧
  lc_level <$> emitted (plain mainlogger (PyStr "x") [] []) sample_worker = [21].
Proof.
  assert (H1 : 1 ≤ 1) by lia. assert (H2 : 1 < 3) by lia.
  destruct (severity_levels mainlogger (PyStr "x") [] [] sample_worker 1 3 H1 H2)
    as (Hp & _ & _ & _ & _ & _ & dn & dm & Hdn & Hdm & -> & -> & _).
  exact (conj H1 (conj H2 (conj Hdn (conj Hdm Hp)))).
Defined.

(** *** The fork-context proxy *)

Section ProxyProperties.
Context {Obj : Type}.
Implicit Types (mp fork_context : gmap string Obj) (nm : string).

Import MultiprocessingContext.

Lemma multiprocessing_ctx fork_context :
  _ctx (multiprocessing fork_context) = fork_context.
Proof. reflexivity. Qed.

Lemma getattr_found owner (ns : gmap string Obj) nm o :
  ns !! nm = Some o → getattr owner ns nm = Ok o.
Proof. unfold getattr. by intros ->. Qed.

Lemma getattr_fast mp (self : t) nm o :
  _ctx self !! nm = Some o → __getattr__ mp self nm = Ok o.
Proof.
  intros Hfast. unfold __getattr__, hasattr. rewrite Hfast.
  by apply getattr_found.
Qed.

Lemma getattr_generic mp (self : t) nm :
  _ctx self !! nm = None →
  __getattr__ mp self nm = getattr "module 'multiprocessing'" mp nm.
Proof. intros Hfast. unfold __getattr__, hasattr. by rewrite Hfast. Qed.

(** C6: [get(name)] on the proxy returns the fast (fork) provider's
    attribute when the fast provider defines the name, otherwise the
    generic provider's, and fails (with an [AttributeError], the
    UnknownPrimitive failure) if and only if neither provider defines the
    name. *)
Theorem getattr_two_tier mp fork_context nm :
  let self := multiprocessing fork_context in
  (∀ o, fork_context !! nm = Some o → __getattr__ mp self nm = Ok o) ∧
  (∀ o, fork_context !! nm = None → mp !! nm = Some o →
        __getattr__ mp self nm = Ok o) ∧
  ((∃ msg, __getattr__ mp self nm = Raise (AttributeError msg)) ↔
   fork_context !! nm = None ∧ mp !! nm = None) ∧
  (returns_normally (__getattr__ mp self nm) = false ↔
   fork_context !! nm = None ∧ mp !! nm = None).
Proof.
  intros self. split_and!.
  - intros o Hfast. by apply getattr_fast.
  - intros o Hfast Hgen. rewrite getattr_generic by done.
    by apply getattr_found.
  - destruct (fork_context !! nm) as [o|] eqn:Hfast.
    { rewrite (getattr_fast mp self nm o Hfast). split; [by intros [? ?]|].
      by intros [? _]. }
    rewrite getattr_generic by done. unfold getattr.
    destruct (mp !! nm) as [o|] eqn:Hgen.
    + split; [by intros [? ?] | by intros [_ ?]].
    + split; [done | eauto].
  - destruct (fork_context !! nm) as [o|] eqn:Hfast.
    { rewrite (getattr_fast mp self nm o Hfast). split; [done | by intros [? _]]. }
    rewrite getattr_generic by done. unfold getattr.
    destruct (mp !! nm) as [o|] eqn:Hgen.
    + split; [done | by intros [_ ?]].
    + done.
Qed.

(** C7: setting any attribute on the constructed proxy fails with an
    [AttributeError] (the ImmutableTarget failure), leaves the bound
    provider as it was, and leaves every later [get(name)] with the result
    it had before the attempt. *)
Theorem setattr_refused mp fork_context nm (value : Obj) :
  let self := multiprocessing fork_context in
  let after := snd (__setattr__ self nm value) in
  fst (__setattr__ self nm value)
    = Raise (AttributeError ("Unable to set attribute " +:+ nm)) ∧
  _ctx after = fork_context ∧
  after = self ∧
  ∀ nm', __getattr__ mp after nm' = __getattr__ mp self nm'.
Proof. by intros self after. Qed.

End ProxyProperties.

Lemma getattr_two_tier_witness :
  (sample_fork !! "Lock" = Some "fork.Lock" ∧
   MultiprocessingContext.__getattr__ sample_mp
     (MultiprocessingContext.multiprocessing sample_fork) "Lock"
   = Ok "fork.Lock") ∧
  (sample_fork !! "Manager" = None ∧ sample_mp !! "Manager" = Some "mp.Manager" ∧
   MultiprocessingContext.__getattr__ sample_mp
     (MultiprocessingContext.multiprocessing sample_fork) "Manager"
   = Ok "mp.Manager") ∧
  (sample_fork !! "NoSuchThing" = None ∧ sample_mp !! "NoSuchThing" = None ∧
   returns_normally
     (MultiprocessingContext.__getattr__ sample_mp
        (MultiprocessingContext.multiprocessing sample_fork) "NoSuchThing")
   = false).
Proof.
  assert (Hlock : sample_fork !! "Lock" = Some "fork.Lock") by reflexivity.
  assert (Hman1 : sample_fork !! "Manager" = None) by reflexivity.
  assert (Hman2 : sample_mp !! "Manager" = Some "mp.Manager") by reflexivity.
  assert (Hno1 : sample_fork !! "NoSuchThing" = None) by reflexivity.
  assert (Hno2 : sample_mp !! "NoSuchThing" = None) by reflexivity.
  split_and!; try assumption.
  - exact (proj1 (getattr_two_tier sample_mp sample_fork "Lock") _ Hlock).
  - exact (proj1 (proj2 (getattr_two_tier sample_mp sample_fork "Manager"))
             _ Hman1 Hman2).
  - exact (proj2 (proj2 (proj2 (proj2
             (getattr_two_tier sample_mp sample_fork "NoSuchThing"))))
             (conj Hno1 Hno2)).
Defined.

(** *** The leveled debug call *)

Section DebugProperties.
Context {R : Repr}.
Implicit Types (self : Logger) (g : Globals) (msg level : pyval) (n : Z).

(** The tail of [bbdebug] past the filter: the argument check, then the
    record. *)
Lemma forward_run self level msg args kw lvl g :
  ((if negb (isinstance_int level) || negb (isinstance_str msg)
    then Logger.warning mainlogger
           (PyStr ("Invalid arguments in bbdebug: "
                   +:+ repr (level :: msg :: args))) [] []
    else mret tt);;
   Logger.log self lvl msg args kw) g =
  (Ok tt,
   (if negb (isinstance_int level) || negb (isinstance_str msg)
    then [invalid_arguments_record level msg args] else [])
   ++ [mkLogCall (name self) lvl msg args kw]).
Proof.
  rewrite run_bind.
  by destruct (negb (isinstance_int level) || negb (isinstance_str msg)).
Qed.

(** [bbdebug] at an integer level, as one conditional. *)
Lemma bbdebug_int self n msg args kw g :
  bbdebug self (PyInt n) msg args kw g =
  let lvl := logging.DEBUG - n + 1 in
  if negb (truthy (worker_pid g)) &&
     (match loggerDefaultDomains g !! name self with
      | Some threshold => lvl >? threshold
      | None => false
      end || (lvl <? loggerDefaultLogLevel g))
  then (Ok tt, [])
  else (Ok tt,
        (if isinstance_str msg then []
         else [invalid_arguments_record (PyInt n) msg args])
        ++ [mkLogCall (name self) lvl msg args kw]).
Proof.
  unfold bbdebug. rewrite run_lift_bind, loglevel_of_int.
  rewrite run_bind. cbn [read_globals fst snd app].
  destruct (truthy (worker_pid g)); cbn [negb andb].
  - rewrite forward_run. cbn. by destruct (isinstance_str msg).
  - destruct (loggerDefaultDomains g !! name self) as [threshold|].
    + destruct (_ >? threshold); cbn [orb]; [done|].
      destruct (_ <? _); [done|].
      rewrite forward_run. cbn. by destruct (isinstance_str msg).
    + cbn [orb]. destruct (_ <? _); [done|].
      rewrite forward_run. cbn. by destruct (isinstance_str msg).
Qed.

(** A level is admitted or suppressed, never both. *)
Lemma admits_or_suppresses g lname lvl :
  (admits g lname lvl ∧ ¬ suppresses g lname lvl) ∨
  (suppresses g lname lvl ∧ ¬ admits g lname lvl).
Proof.
  unfold admits, suppresses.
  destruct (loggerDefaultDomains g !! lname) as [threshold|] eqn:Hdom.
  - destruct (Z_le_gt_dec lvl threshold) as [Hle|Hgt].
    + destruct (Z_le_gt_dec (loggerDefaultLogLevel g) lvl) as [Hfl|Hfl].
      * left. split; [naive_solver|]. intros [(t & Ht & Hlt)|Hlt]; [|lia].
        simplify_eq. lia.
      * right. split; [right; lia|]. intros [_ ?]. lia.
    + right. split; [left; exists threshold; split; [done|lia]|].
      intros [[?|(t & Ht & Hlt)] _]; [done|]. simplify_eq. lia.
  - destruct (Z_le_gt_dec (loggerDefaultLogLevel g) lvl) as [Hfl|Hfl].
    + left. split; [naive_solver|]. intros [(t & Ht & _)|Hlt]; [done|lia].
    + right. split; [right; lia|]. intros [_ ?]. lia.
Qed.

(** The test written in [bbdebug] decides the Domain Filter. *)
Lemma filter_test_spec g lname lvl :
  (match loggerDefaultDomains g !! lname with
   | Some threshold => lvl >? threshold
   | None => false
   end || (lvl <? loggerDefaultLogLevel g)) = true ↔ suppresses g lname lvl.
Proof.
  unfold suppresses. rewrite orb_true_iff, Z.ltb_lt.
  destruct (loggerDefaultDomains g !! lname) as [threshold|].
  - rewrite Z.gtb_gt. split.
    + intros [?|?]; [left; exists threshold; split; [done|lia] | by right].
    + intros [(t & Ht & ?)|?]; [left; simplify_eq; lia | by right].
  - split; [intros [?|?]; [done | by right]|].
    intros [(t & Ht & _)|?]; [done | by right].
Qed.

(** C1: in the controller (worker pid unset) [bbdebug(n, msg)] forwards
    its record, at level DEBUG - n + 1, if and only if the logger's name
    is absent from the Domain Filter Table or the level is at most the
    table's threshold for it, and the level is at least the process-wide
    floor; it forwards nothing exactly when the level exceeds the
    threshold or lies below the floor. *)
Theorem bbdebug_primary_filter self n msg args kw g :
  truthy (worker_pid g) = false →
  let lvl := logging.DEBUG - n + 1 in
  let record := mkLogCall (name self) lvl msg args kw in
  loglevel_of (PyInt n) = Ok lvl ∧
  (record ∈ emitted (bbdebug self (PyInt n) msg args kw) g ↔
   (loggerDefaultDomains g !! name self = None ∨
    ∃ threshold, loggerDefaultDomains g !! name self = Some threshold ∧
                 lvl ≤ threshold) ∧
   loggerDefaultLogLevel g ≤ lvl) ∧
  (emitted (bbdebug self (PyInt n) msg args kw) g = [] ↔
   (∃ threshold, loggerDefaultDomains g !! name self = Some threshold ∧
                 threshold < lvl) ∨
   lvl < loggerDefaultLogLevel g) ∧
  (isinstance_str msg = true →
   admits g (name self) lvl →
   bbdebug self (PyInt n) msg args kw g = (Ok tt, [record])).
Proof.
  intros Hprimary lvl record. split; [apply loglevel_of_int|].
  unfold emitted. rewrite bbdebug_int, Hprimary. cbn [negb andb].
  fold lvl. fold record.
  change (_ ∧ loggerDefaultLogLevel g ≤ lvl) with (admits g (name self) lvl).
  change (_ ∨ lvl < loggerDefaultLogLevel g)
    with (suppresses g (name self) lvl).
  pose proof (filter_test_spec g (name self) lvl) as Htest.
  destruct (admits_or_suppresses g (name self) lvl) as [[Ha Hs]|[Hs Ha]].
  - destruct (_ || _); [by destruct Hs; apply Htest|].
    cbn [snd]. split_and!.
    + split; [done|]. intros _. apply elem_of_app. right. by left.
    + split; [|done]. by destruct (isinstance_str msg).
    + by intros ->.
  - apply Htest in Hs as Htrue. rewrite Htrue. cbn [snd]. split_and!.
    + split; [by intros ?%elem_of_nil | done].
    + done.
    + done.
Qed.

(** C4: in a worker (worker pid set) [bbdebug(n, msg)] forwards its record
    for every n, and its run does not depend on the Domain Filter Table or
    on the floor. *)
Theorem bbdebug_worker_unfiltered self n msg args kw g :
  truthy (worker_pid g) = true →
  let record := mkLogCall (name self) (logging.DEBUG - n + 1) msg args kw in
  outcome (bbdebug self (PyInt n) msg args kw) g = Ok tt ∧
  last (emitted (bbdebug self (PyInt n) msg args kw) g) = Some record ∧
  (isinstance_str msg = true →
   emitted (bbdebug self (PyInt n) msg args kw) g = [record]) ∧
  ∀ domains floor,
    bbdebug self (PyInt n) msg args kw (mkGlobals (worker_pid g) domains floor)
    = bbdebug self (PyInt n) msg args kw g.
Proof.
  intros Hworker record.
  unfold outcome, emitted. rewrite bbdebug_int, Hworker. cbn [negb andb fst snd].
  split_and!.
  - done.
  - by rewrite last_snoc.
  - by intros ->.
  - intros domains floor. rewrite bbdebug_int. cbn [worker_pid].
    by rewrite Hworker.
Qed.

End DebugProperties.

Lemma bbdebug_primary_filter_witness :
  truthy (worker_pid sample_primary_domain) = false ∧
  mkLogCall "BitBake.Main" 9 (PyStr "x") [] []
    ∈ emitted (bbdebug (R := sample_repr) mainlogger (PyInt 2) (PyStr "x") [] [])
        sample_primary_domain ∧
  emitted (bbdebug (R := sample_repr) mainlogger (PyInt 1) (PyStr "x") [] [])
    sample_primary_domain = [].
Proof.
  assert (Hp : truthy (worker_pid sample_primary_domain) = false) by reflexivity.
  split; [exact Hp|]. split.
  - apply (bbdebug_primary_filter (R := sample_repr)
             mainlogger 2 (PyStr "x") [] [] sample_primary_domain Hp).
    split; [right; exists 9; split; [reflexivity | vm_compute; discriminate]|].
    vm_compute; discriminate.
  - apply (bbdebug_primary_filter (R := sample_repr)
             mainlogger 1 (PyStr "x") [] [] sample_primary_domain Hp).
    left. exists 9. split; [reflexivity | reflexivity].
Defined.

Lemma bbdebug_worker_unfiltered_witness :
  truthy (worker_pid sample_worker) = true ∧
  emitted (bbdebug (R := sample_repr) mainlogger (PyInt 3) (PyStr "x") [] [])
    sample_worker
  = [mkLogCall "BitBake.Main" 8 (PyStr "x") [] []].
Proof.
  assert (Hw : truthy (worker_pid sample_worker) = true) by reflexivity.
  split; [exact Hw|].
  apply (bbdebug_worker_unfiltered (R := sample_repr)
           mainlogger 3 (PyStr "x") [] [] sample_worker Hw).
  reflexivity.
Defined.

(** *** [fatal] *)

Section FatalProperties.
Context {L : LogRecordAttributes}.

Lemma makeRecord_extra_accepts (extra : list (string * pyval)) :
  Forall (λ key, overwrites key = false) extra.*1 →
  makeRecord_extra extra = Ok tt.
Proof.
  unfold makeRecord_extra. induction extra as [|[key v] extra IH]; [done|].
  rewrite fmap_cons. intros [Hkey Hrest]%Forall_cons. cbn [fst] in Hkey.
  cbn [refused_key]. rewrite Hkey. by apply IH.
Qed.

Lemma makeRecord_extra_raises (extra : list (string * pyval)) e :
  makeRecord_extra extra = Raise e →
  ∃ key, e = KeyError key ∧ key ∈ extra.*1 ∧ overwrites key = true.
Proof.
  unfold makeRecord_extra. induction extra as [|[key v] extra IH]; [done|].
  cbn [refused_key]. destruct (overwrites key) eqn:Hkey.
  - intros [= <-]. exists key. split; [done|]. split; [|done].
    rewrite fmap_cons. by left.
  - intros He. destruct (IH He) as (key' & -> & Hin & Hrefused).
    exists key'. split; [done|]. split; [|done].
    rewrite fmap_cons. by right.
Qed.

(** The run of [fatal] once the fragments are joined. *)
Lemma fatal_run (args : list pyval) (kw : list (string * pyval))
    (g : Globals) :
  bb.fatal args kw g =
  match join args with
  | Raise e => (Raise e, [])
  | Ok body =>
      match makeRecord_extra kw with
      | Raise e => (Raise e, [])
      | Ok _ =>
          (Raise BBHandledException,
           [mkLogCall "BitBake.Main" logging.CRITICAL (PyStr body) []
              [("extra", KwDict kw)]])
      end
  end.
Proof.
  unfold bb.fatal. rewrite run_lift_bind. destruct (join args) as [body|e];
    [|done].
  rewrite run_bind. unfold Logger.critical. rewrite run_lift_bind.
  by destruct (makeRecord_extra kw) as [[]|e].
Qed.

(** The run of [error] once the fragments are joined. *)
Lemma error_run (args : list pyval) (kw : list (string * pyval))
    (g : Globals) :
  bb.error args kw g =
  match join args with
  | Raise e => (Raise e, [])
  | Ok body =>
      match makeRecord_extra kw with
      | Raise e => (Raise e, [])
      | Ok _ =>
          (Ok tt,
           [mkLogCall "BitBake.Main" logging.ERROR (PyStr body) []
              [("extra", KwDict kw)]])
      end
  end.
Proof.
  unfold bb.error. rewrite run_lift_bind. destruct (join args) as [body|e];
    [|done].
  unfold Logger.error. rewrite run_lift_bind.
  by destruct (makeRecord_extra kw) as [[]|e].
Qed.

(** C2, as amended: for all text fragments and all metadata none of whose
    keys is refused by the record ("message", "asctime" or an attribute a
    log record already has), [fatal] hands exactly one record to the
    sink, at CRITICAL and with the verbatim concatenation of the
    fragments as its body, then raises [BBHandledException], which
    carries the Handled-Failure marker; whatever its arguments and
    metadata, it never returns normally. *)
Theorem fatal_emits_then_raises (frags : list string)
    (kw : list (string * pyval)) (g : Globals) :
  Forall (λ key, overwrites key = false) kw.*1 →
  emitted (bb.fatal (PyStr <$> frags) kw) g
    = [mkLogCall "BitBake.Main" logging.CRITICAL (PyStr (concat_text frags))
         [] [("extra", KwDict kw)]] ∧
  (∃ e, outcome (bb.fatal (PyStr <$> frags) kw) g = Raise e ∧
        e = BBHandledException ∧ is_handled e = true) ∧
  ∀ args kw', returns_normally (outcome (bb.fatal args kw') g) = false.
Proof.
  intros Hkeys. apply makeRecord_extra_accepts in Hkeys.
  unfold emitted, outcome. rewrite fatal_run, join_text, Hkeys.
  split_and!; [done | by exists BBHandledException |].
  intros args kw'. rewrite fatal_run.
  destruct (join args); [|done]. by destruct (makeRecord_extra kw').
Qed.

End FatalProperties.

Lemma fatal_emits_then_raises_witness :
  Forall (λ key, overwrites (L := sample_attributes) key = false)
    [("recipe", PyStr "busybox")].*1 ∧
  bb.fatal (L := sample_attributes) [PyStr "cannot "; PyStr "parse"]
    [("recipe", PyStr "busybox")] sample_primary
  = (Raise BBHandledException,
     [mkLogCall "BitBake.Main" 50 (PyStr "cannot parse") []
        [("extra", KwDict [("recipe", PyStr "busybox")])]]).
Proof.
  assert (Hkeys : Forall (λ key, overwrites (L := sample_attributes) key
                                 = false) [("recipe", PyStr "busybox")].*1)
    by (repeat constructor).
  split; [exact Hkeys|].
  destruct (fatal_emits_then_raises (L := sample_attributes)
              ["cannot "; "parse"] [("recipe", PyStr "busybox")]
              sample_primary Hkeys) as (Hemitted & (e & Houtcome & -> & _) & _).
  unfold emitted, outcome in *.
  destruct (bb.fatal _ _ _) as [r out]. cbn [fst snd] in *. by subst.
Defined.

(** C2 fails as stated: with the metadata key "name", which every log
    record has as an attribute, [fatal("cannot parse", name="x")] hands no
    record to the sink and raises a [KeyError], which does not carry the
    Handled-Failure marker. *)
Lemma fatal_refused_metadata_key :
  overwrites (L := sample_attributes) "name" = true ∧
  bb.fatal (L := sample_attributes) [PyStr "cannot parse"]
    [("name", PyStr "x")] sample_primary
  = (Raise (KeyError "name"), []) ∧
  is_handled (KeyError "name") = false.
Proof. by split_and!. Qed.

(** *** The [debug] attribute of BitBake loggers *)

Lemma split_nonempty sep s : split sep s ≠ [].
Proof.
  destruct s as [|c rest]; cbn; [done|].
  destruct (Ascii.eqb c sep); [done|]. by destruct (split sep rest).
Qed.

(** [name.split(sep)[0]] is the part of the name before the first
    separator. *)
Lemma item0_split sep s : item0 (split sep s) = before sep s.
Proof.
  induction s as [|c rest IH]; cbn; [done|].
  destruct (Ascii.eqb c sep); [done|].
  pose proof (split_nonempty sep rest) as Hne.
  destruct (split sep rest) as [|piece pieces]; [done|].
  cbn in *. by rewrite IH.
Qed.

(** The first segment is [seg] exactly for the name [seg] itself and for
    the names that continue [seg] with a separator. *)
Lemma before_spec sep seg s :
  before sep s = seg ↔
  free_of sep seg = true ∧
  (s = seg ∨ ∃ rest, s = seg +:+ String sep rest).
Proof.
  revert seg. induction s as [|c s IH]; intros seg; cbn.
  - split.
    + intros <-. split; [done | by left].
    + intros [_ [<-|(rest & Hrest)]]; [done|].
      destruct seg; discriminate Hrest.
  - destruct (Ascii.eqb_spec c sep) as [->|Hne].
    + split.
      * intros <-. split; [done|]. right. by exists s.
      * intros [Hfree [<-|(rest & Hrest)]].
        -- cbn in Hfree. by rewrite Ascii.eqb_refl in Hfree.
        -- destruct seg as [|c' seg']; [done|].
           change (String sep s = String c' (seg' +:+ String sep rest)) in Hrest.
           injection Hrest as <- _.
           cbn in Hfree. by rewrite Ascii.eqb_refl in Hfree.
    + split.
      * intros <-.
        destruct (proj1 (IH (before sep s)) eq_refl) as [Hfree Hcases].
        split.
        -- cbn. apply Ascii.eqb_neq in Hne. by rewrite Hne.
        -- destruct Hcases as [Heq|(rest & Hrest)].
           ++ left. by f_equal.
           ++ right. exists rest.
              change (String c s = String c (before sep s +:+ String sep rest)).
              by f_equal.
      * intros [Hfree Hcases]. destruct seg as [|c' seg'].
        -- destruct Hcases as [?|(rest & Hrest)]; [done|].
           change (String c s = String sep rest) in Hrest.
           by injection Hrest.
        -- cbn in Hfree. apply andb_true_iff in Hfree as [_ Hfree].
           assert (c = c' ∧ (s = seg' ∨ ∃ rest, s = seg' +:+ String sep rest))
             as [<- Hcases'].
           { destruct Hcases as [Heq|(rest & Hrest)].
             - injection Heq as <- <-. split; [done | by left].
             - change (String c s = String c' (seg' +:+ String sep rest))
                 in Hrest.
               injection Hrest as <- ->. split; [done|]. right. by exists rest. }
           f_equal. by apply IH.
Qed.

Lemma first_segment_BitBake nm :
  item0 (split "." nm) = "BitBake" ↔
  nm = "BitBake" ∨ ∃ rest, nm = "BitBake." +:+ rest.
Proof.
  rewrite item0_split, before_spec. split.
  - intros [_ [?|(rest & ?)]]; [by left | right; by exists rest].
  - intros Hnm. split; [done|].
    destruct Hnm as [?|(rest & ?)]; [by left | right; by exists rest].
Qed.

Section SetupProperties.
Context {R : Repr}.

(** C9: after [setup_bblogger] with a name whose first dotted segment is
    "BitBake", the logger's [debug(msg, ...)] is [bbdebug(1, msg, ...)];
    with any other name [setup_bblogger] leaves the logger, and so its
    [debug] operation, unchanged.  The first segment is "BitBake" exactly
    for the name "BitBake" and the names that start with "BitBake.". *)
Theorem setup_bblogger_debug (self : Logger) (nm : string) :
  (item0 (split "." nm) = "BitBake" →
   debug_attr (setup_bblogger self nm) = DebugHelper ∧
   ∀ msg args kw,
     call_debug (setup_bblogger self nm) (msg :: args) kw
     = bbdebug (setup_bblogger self nm) (PyInt 1) msg args kw) ∧
  (item0 (split "." nm) ≠ "BitBake" →
   setup_bblogger self nm = self ∧
   ∀ args kw,
     call_debug (setup_bblogger self nm) args kw = call_debug self args kw) ∧
  (item0 (split "." nm) = "BitBake" ↔
   nm = "BitBake" ∨ ∃ rest, nm = "BitBake." +:+ rest).
Proof.
  unfold setup_bblogger. split_and!.
  - intros ->. by rewrite String.eqb_refl.
  - intros Hne. apply String.eqb_neq in Hne. by rewrite Hne.
  - apply first_segment_BitBake.
Qed.

End SetupProperties.

Lemma setup_bblogger_debug_witness :
  (item0 (split "." "BitBake.Fetcher") = "BitBake" ∧
   call_debug (R := sample_repr) (BBLogger "BitBake.Fetcher") [PyStr "x"] []
   = bbdebug (R := sample_repr) (BBLogger "BitBake.Fetcher") (PyInt 1)
       (PyStr "x") [] []) ∧
  (item0 (split "." "py.warnings") ≠ "BitBake" ∧
   BBLogger "py.warnings" = mkLogger "py.warnings" StockDebug).
Proof.
  assert (Hbb : item0 (split "." "BitBake.Fetcher") = "BitBake") by reflexivity.
  assert (Hpy : item0 (split "." "py.warnings") ≠ "BitBake")
    by (vm_compute; discriminate).
  split; (split; [assumption|]).
  - exact (proj2 (proj1 (setup_bblogger_debug (R := sample_repr)
                           (mkLogger "BitBake.Fetcher" StockDebug)
                           "BitBake.Fetcher") Hbb) (PyStr "x") [] []).
  - exact (proj1 (proj1 (proj2 (setup_bblogger_debug (R := sample_repr)
                                  (mkLogger "py.warnings" StockDebug)
                                  "py.warnings")) Hpy)).
Defined.

(** *** The module-level [debug] *)

Section FacadeDebugProperties.
Context {R : Repr}.

Lemma join_cons_text (s : string) (frags : list string) :
  join (PyStr s :: (PyStr <$> frags)) = Ok (s +:+ concat_text frags).
Proof. cbn. by rewrite join_text. Qed.

(** With a string as level, [bb.debug] warns, then calls [bbdebug] at
    level 1 with the string leading the message. *)
Lemma debug_str_run (s : string) (frags : list string) (g : Globals) :
  bb.debug (PyStr s) (PyStr <$> frags) g =
  (fst (bbdebug mainlogger (PyInt 1) (PyStr (s +:+ concat_text frags)) [] [] g),
   invalid_level_record (PyStr s)
   :: snd (bbdebug mainlogger (PyInt 1) (PyStr (s +:+ concat_text frags))
             [] [] g)).
Proof.
  unfold bb.debug. cbn [isinstance_str].
  rewrite run_bind, run_bind, run_ret.
  cbn [Logger.warning Logger.log emit fst snd app].
  by rewrite run_lift_bind, join_cons_text.
Qed.

(** With an integer as level, [bb.debug] is [bbdebug] at that level. *)
Lemma debug_int_run (n : Z) (frags : list string) (g : Globals) :
  bb.debug (PyInt n) (PyStr <$> frags) g
  = bbdebug mainlogger (PyInt n) (PyStr (concat_text frags)) [] [] g.
Proof.
  unfold bb.debug. cbn [isinstance_str]. rewrite run_bind, run_ret.
  cbn [fst snd app].
  rewrite run_lift_bind, join_text.
  by destruct (bbdebug _ _ _ _ _ g).
Qed.

(** C5, as amended: when the level argument is a string, [bb.debug] logs
    one warning about the misuse, continues as [bbdebug] at level 1 with
    the string leading the message, and returns normally; an integer
    level, positive or not, is passed to [bbdebug] as it is, with no
    warning and no coercion. *)
Theorem debug_string_level_coerced (s : string) (frags : list string)
    (g : Globals) :
  outcome (bb.debug (PyStr s) (PyStr <$> frags)) g = Ok tt ∧
  emitted (bb.debug (PyStr s) (PyStr <$> frags)) g
  = invalid_level_record (PyStr s)
    :: emitted (bbdebug mainlogger (PyInt 1)
                  (PyStr (s +:+ concat_text frags)) [] []) g ∧
  ∀ n,
    bb.debug (PyInt n) (PyStr <$> frags) g
    = bbdebug mainlogger (PyInt n) (PyStr (concat_text frags)) [] [] g ∧
    ∀ r, r ∈ emitted (bb.debug (PyInt n) (PyStr <$> frags)) g →
         r = mkLogCall "BitBake.Main" (logging.DEBUG - n + 1)
               (PyStr (concat_text frags)) [] [].
Proof.
  split_and!.
  - unfold outcome. rewrite debug_str_run, bbdebug_int. cbn [fst].
    by destruct (_ && _).
  - unfold emitted. by rewrite debug_str_run.
  - intros n. split; [apply debug_int_run|].
    unfold emitted. rewrite debug_int_run, bbdebug_int. cbv zeta.
    destruct (_ && _); cbn [snd isinstance_str app].
    + by intros r ?%elem_of_nil.
    + by intros r ->%list_elem_of_singleton.
Qed.

(** C10, as amended: with a string [s] as level and text fragments,
    [bb.debug] emits the warning and then, when the process is a worker or
    the Domain Filter admits DEBUG(1) for the main logger, one record at
    DEBUG(1) whose body is [s] followed by the concatenation of the
    fragments; when the controller's filter suppresses DEBUG(1), the
    warning is all it emits. *)
Theorem debug_string_level_leads_message (s : string) (frags : list string)
    (g : Globals) :
  let record :=
    mkLogCall "BitBake.Main" logging.DEBUG
      (PyStr (s +:+ concat_text frags)) [] [] in
  loglevel_of (PyInt 1) = Ok logging.DEBUG ∧
  (truthy (worker_pid g) = true ∨ admits g "BitBake.Main" logging.DEBUG →
   emitted (bb.debug (PyStr s) (PyStr <$> frags)) g
   = [invalid_level_record (PyStr s); record]) ∧
  (truthy (worker_pid g) = false →
   suppresses g "BitBake.Main" logging.DEBUG →
   emitted (bb.debug (PyStr s) (PyStr <$> frags)) g
   = [invalid_level_record (PyStr s)]).
Proof.
  intros record. split; [done|].
  unfold emitted. rewrite debug_str_run, bbdebug_int. cbn [snd].
  change (logging.DEBUG - 1 + 1) with logging.DEBUG.
  change (name mainlogger) with "BitBake.Main".
  pose proof (filter_test_spec g "BitBake.Main" logging.DEBUG) as Htest.
  split.
  - intros [Hworker|Hadmits].
    + by rewrite Hworker.
    + destruct (admits_or_suppresses g "BitBake.Main" logging.DEBUG)
        as [[_ Hs]|[_ Ha]]; [|done].
      destruct (_ || _); [by destruct Hs; apply Htest|].
      by rewrite andb_false_r.
  - intros Hprimary Hs. apply Htest in Hs. by rewrite Hprimary, Hs.
Qed.

End FacadeDebugProperties.

Lemma debug_string_level_coerced_witness :
  emitted (bb.debug (R := sample_repr) (PyStr "oops") [PyStr "x"])
    sample_worker
  = [invalid_level_record (PyStr "oops");
     mkLogCall "BitBake.Main" 10 (PyStr "oopsx") [] []] ∧
  (mkLogCall "BitBake.Main" 11 (PyStr "x") [] []
     ∈ emitted (bb.debug (R := sample_repr) (PyInt 0) [PyStr "x"])
         sample_worker ∧
   mkLogCall "BitBake.Main" 11 (PyStr "x") [] []
   = mkLogCall "BitBake.Main" (logging.DEBUG - 0 + 1)
       (PyStr (concat_text ["x"])) [] []).
Proof.
  destruct (debug_string_level_coerced (R := sample_repr)
              "oops" ["x"] sample_worker) as (_ & Hemitted & _).
  destruct (debug_string_level_coerced (R := sample_repr)
              "" ["x"] sample_worker) as (_ & _ & Hint).
  split; [exact Hemitted|].
  assert (Hin : mkLogCall "BitBake.Main" 11 (PyStr "x") [] []
                  ∈ emitted (bb.debug (R := sample_repr) (PyInt 0) [PyStr "x"])
                      sample_worker) by (vm_compute; left).
  split; [exact Hin|].
  exact (proj2 (Hint 0) _ Hin).
Defined.

(** C5 fails as stated: the level 0 is not a positive integer, yet
    [bb.debug(0, "x")] logs no warning and emits at level 11, not at
    DEBUG(1) = 10; and with [None] as level the call aborts with a
    [TypeError]. *)
Lemma debug_level_zero_not_coerced :
  emitted (bb.debug (R := sample_repr) (PyInt 0) [PyStr "x"]) sample_worker
  = [mkLogCall "BitBake.Main" 11 (PyStr "x") [] []] ∧
  ¬ (∃ w, w ∈ emitted (bb.debug (R := sample_repr) (PyInt 0) [PyStr "x"])
               sample_worker ∧
          lc_level w = logging.WARNING) ∧
  ¬ (∃ r, r ∈ emitted (bb.debug (R := sample_repr) (PyInt 0) [PyStr "x"])
               sample_worker ∧
          Ok (lc_level r) = loglevel_of (PyInt 1)) ∧
  outcome (bb.debug (R := sample_repr) PyNone [PyStr "x"]) sample_worker
  = Raise TypeError.
Proof.
  assert (Hrun : emitted (bb.debug (R := sample_repr) (PyInt 0) [PyStr "x"])
                   sample_worker
                 = [mkLogCall "BitBake.Main" 11 (PyStr "x") [] []])
    by reflexivity.
  rewrite Hrun. split_and!.
  - reflexivity.
  - intros (w & ->%list_elem_of_singleton & Hlevel). discriminate Hlevel.
  - intros (r & ->%list_elem_of_singleton & Hlevel). discriminate Hlevel.
  - reflexivity.
Qed.

Lemma debug_string_level_leads_message_witness :
  (truthy (worker_pid sample_worker) = true ∧
   emitted (bb.debug (R := sample_repr) (PyStr "oops") [PyStr "x"; PyStr "y"])
     sample_worker
   = [invalid_level_record (PyStr "oops");
      mkLogCall "BitBake.Main" 10 (PyStr "oopsxy") [] []]) ∧
  (truthy (worker_pid sample_primary) = false ∧
   suppresses sample_primary "BitBake.Main" logging.DEBUG ∧
   emitted (bb.debug (R := sample_repr) (PyStr "oops") [PyStr "x"; PyStr "y"])
     sample_primary
   = [invalid_level_record (PyStr "oops")]).
Proof.
  assert (Hw : truthy (worker_pid sample_worker) = true) by reflexivity.
  assert (Hp : truthy (worker_pid sample_primary) = false) by reflexivity.
  assert (Hs : suppresses sample_primary "BitBake.Main" logging.DEBUG)
    by (right; reflexivity).
  split.
  - split; [exact Hw|].
    exact (proj1 (proj2 (debug_string_level_leads_message (R := sample_repr)
                           "oops" ["x"; "y"] sample_worker)) (or_introl Hw)).
  - split; [exact Hp|]. split; [exact Hs|].
    exact (proj2 (proj2 (debug_string_level_leads_message (R := sample_repr)
                           "oops" ["x"; "y"] sample_primary)) Hp Hs).
Defined.

(** C10 fails as stated: in the controller with the floor at NOTE and an
    empty Domain Filter Table, [bb.debug("oops", "x")] emits the warning
    only, and no record at DEBUG(1). *)
Lemma debug_string_level_suppressed :
  truthy (worker_pid sample_primary) = false ∧
  emitted (bb.debug (R := sample_repr) (PyStr "oops") [PyStr "x"])
    sample_primary
  = [invalid_level_record (PyStr "oops")] ∧
  ¬ (∃ r, r ∈ emitted (bb.debug (R := sample_repr) (PyStr "oops") [PyStr "x"])
               sample_primary ∧
          lc_level r = logging.DEBUG).
Proof.
  assert (Hrun : emitted (bb.debug (R := sample_repr) (PyStr "oops")
                            [PyStr "x"]) sample_primary
                 = [invalid_level_record (PyStr "oops")])
    by reflexivity.
  rewrite Hrun. split_and!; [reflexivity | reflexivity |].
  intros (r & ->%list_elem_of_singleton & Hlevel). discriminate Hlevel.
Qed.

(** *** The once-families *)

Lemma shouldEmitOnce_first fam body c :
  body ∉ seen fam c →
  (shouldEmitOnce fam body c).1 = true ∧
  body ∈ seen fam (shouldEmitOnce fam body c).2.
Proof.
  intros Hfresh. destruct fam; cbn in *; case_decide; try done;
    cbn; split; try done; set_solver.
Qed.

Lemma shouldEmitOnce_again fam body c :
  body ∈ seen fam c → shouldEmitOnce fam body c = (false, c).
Proof. intros Hseen. by destruct fam; cbn in *; case_decide. Qed.

(** The cache only grows. *)
Lemma shouldEmitOnce_mono fam body fam' body' c :
  body' ∈ seen fam' c → body' ∈ seen fam' (shouldEmitOnce fam body c).2.
Proof.
  intros Hseen. destruct fam, fam'; cbn in *; case_decide; cbn; set_solver.
Qed.

Lemma deliver1_mono c r fam body :
  body ∈ seen fam c → body ∈ seen fam (deliver1 c r).2.
Proof.
  intros Hseen. unfold deliver1.
  destruct (family_of r) as [fam'|]; [|done].
  destruct (lc_msg r) as [| | |b]; try done.
  pose proof (shouldEmitOnce_mono fam' b fam body c Hseen) as Hmono.
  by destruct (shouldEmitOnce fam' b c).
Qed.

Lemma once_record_spec fam body r :
  once_record fam body r = true ↔
  family_of r = Some fam ∧ lc_msg r = PyStr body.
Proof.
  unfold once_record.
  destruct (family_of r) as [[]|], (lc_msg r) as [| | |b], fam;
    try (split; [done | intros [? ?]; congruence]).
  all: rewrite String.eqb_eq; split; [by intros -> | intros [_ ?]; congruence].
Qed.

(** A record of a family whose body is in the cache is dropped; any other
    record delivers at most itself. *)
Lemma deliver1_seen c r fam body :
  once_record fam body r = true → body ∈ seen fam c →
  deliver1 c r = ([], c).
Proof.
  intros [Hfam Hmsg]%once_record_spec Hseen. unfold deliver1.
  by rewrite Hfam, Hmsg, shouldEmitOnce_again.
Qed.

Lemma deliver1_fresh c r fam body :
  once_record fam body r = true → body ∉ seen fam c →
  (deliver1 c r).1 = [r] ∧ body ∈ seen fam (deliver1 c r).2.
Proof.
  intros [Hfam Hmsg]%once_record_spec Hfresh. unfold deliver1.
  rewrite Hfam, Hmsg.
  destruct (shouldEmitOnce_first fam body c Hfresh) as [Hok Hin].
  destruct (shouldEmitOnce fam body c) as [ok c']. cbn in *. by subst ok.
Qed.

(** The families do not share a namespace: a record of one family leaves
    the other family's part of the cache as it was. *)
Lemma deliver1_frame c r fam body fam' :
  once_record fam body r = true → fam ≠ fam' →
  seen fam' (deliver1 c r).2 = seen fam' c.
Proof.
  intros [Hfam Hmsg]%once_record_spec Hne. unfold deliver1.
  rewrite Hfam, Hmsg.
  destruct fam, fam'; try done; cbn; by case_decide.
Qed.

Lemma deliver1_other c r fam body :
  once_record fam body r = false →
  List.filter (once_record fam body) (deliver1 c r).1 = [].
Proof.
  intros Hother. unfold deliver1.
  destruct (family_of r) as [fam'|]; [|by cbn; rewrite Hother].
  destruct (lc_msg r) as [| | |b]; try by cbn; rewrite Hother.
  destruct (shouldEmitOnce fam' b c) as [[] c']; cbn; [by rewrite Hother | done].
Qed.

Lemma deliver_cons c r rest :
  deliver c (r :: rest) =
  ((deliver1 c r).1 ++ (deliver (deliver1 c r).2 rest).1,
   (deliver (deliver1 c r).2 rest).2).
Proof.
  change (deliver c (r :: rest))
    with (let '(out, c') := deliver1 c r in
          let '(out', c'') := deliver c' rest in (out ++ out', c'')).
  destruct (deliver1 c r) as [out c']. cbn [fst snd].
  by destruct (deliver c' rest).
Qed.

(** Once a body is in the cache of a family, no record of that family
    with that body is delivered. *)
Lemma deliver_seen c rs fam body :
  body ∈ seen fam c →
  List.filter (once_record fam body) (deliver c rs).1 = [].
Proof.
  revert c. induction rs as [|r rest IH]; intros c Hseen; [done|].
  rewrite deliver_cons. cbn [fst]. rewrite List.filter_app.
  rewrite (IH _ (deliver1_mono c r fam body Hseen)), app_nil_r.
  destruct (once_record fam body r) eqn:Honce.
  - by rewrite (deliver1_seen c r fam body Honce Hseen).
  - by apply deliver1_other.
Qed.

(** Whatever the records of a process and whatever the cache at the
    start, at most one record of a family with a given body is
    delivered. *)
Lemma deliver_at_most_once c rs fam body :
  (length (List.filter (once_record fam body) (deliver c rs).1) ≤ 1)%nat.
Proof.
  revert c. induction rs as [|r rest IH]; intros c; [cbn; lia|].
  rewrite deliver_cons. cbn [fst]. rewrite List.filter_app, length_app.
  destruct (once_record fam body r) eqn:Honce.
  - destruct (decide (body ∈ seen fam c)) as [Hseen|Hfresh].
    + rewrite (deliver1_seen c r fam body Honce Hseen). cbn. apply IH.
    + destruct (deliver1_fresh c r fam body Honce Hfresh) as [-> Hin].
      rewrite (deliver_seen _ rest fam body Hin). cbn. rewrite Honce. cbn. lia.
  - rewrite (deliver1_other c r fam body Honce). cbn. apply IH.
Qed.

(** [k] calls of an operation that hands over one record hand over [k]
    copies of it. *)
Lemma times_run (m : M unit) (r : LogCall) (g : Globals) (k : nat) :
  m g = (Ok tt, [r]) →
  times k m g = (Ok tt, replicate k r).
Proof.
  intros Hm. induction k as [|k IH]; [done|].
  cbn [times]. rewrite run_bind, Hm, IH. reflexivity.
Qed.

Lemma deliver_replicate_seen c r fam body (k : nat) :
  once_record fam body r = true → body ∈ seen fam c →
  deliver c (replicate k r) = ([], c).
Proof.
  intros Honce Hseen. induction k as [|k IH]; [done|].
  cbn [replicate]. rewrite deliver_cons, (deliver1_seen c r fam body) by done.
  cbn [fst snd app]. by rewrite IH.
Qed.

Lemma warnonce_run (frags : list string) (g : Globals) :
  bb.warnonce (PyStr <$> frags) g =
  (Ok tt, [mkLogCall "BitBake.Main" (logging.WARNING - 1)
             (PyStr (concat_text frags)) [] []]).
Proof. unfold bb.warnonce. by rewrite run_lift_bind, join_text. Qed.

Lemma erroronce_run (frags : list string) (g : Globals) :
  bb.erroronce (PyStr <$> frags) g =
  (Ok tt, [mkLogCall "BitBake.Main" (logging.ERROR - 1)
             (PyStr (concat_text frags)) [] []]).
Proof. unfold bb.erroronce. by rewrite run_lift_bind, join_text. Qed.

(** C3: each [warnonce] call tags its record with the warn-once level;
    past the Dedup Cache, any number of [warnonce] calls with one body
    leaves exactly one record with that body (and no stream of records
    ever leaves more than one per family and body); [erroronce] has a
    namespace of its own, so [warnonce] followed by [erroronce] with the
    same body leaves two records, one per family. *)
Theorem once_families_dedup (frags : list string) (g : Globals) :
  let body := concat_text frags in
  let warned := mkLogCall "BitBake.Main" (logging.WARNING - 1) (PyStr body) [] [] in
  let erred := mkLogCall "BitBake.Main" (logging.ERROR - 1) (PyStr body) [] [] in
  emitted (bb.warnonce (PyStr <$> frags)) g = [warned] ∧
  emitted (bb.erroronce (PyStr <$> frags)) g = [erred] ∧
  (∀ k : nat,
     (deliver empty_cache
        (emitted (times (S k) (bb.warnonce (PyStr <$> frags))) g)).1
     = [warned]) ∧
  (∀ c rs fam b,
     (length (List.filter (once_record fam b) (deliver c rs).1) ≤ 1)%nat) ∧
  (deliver empty_cache
     (emitted (bb.warnonce (PyStr <$> frags);;
               bb.erroronce (PyStr <$> frags)) g)).1
  = [warned; erred].
Proof.
  intros body warned erred.
  assert (Hw : once_record WarnOnce body warned = true)
    by (cbn; apply String.eqb_refl).
  assert (He : once_record ErrorOnce body erred = true)
    by (cbn; apply String.eqb_refl).
  assert (Hfresh : ∀ fam, body ∉ seen fam empty_cache)
    by (intros []; cbn; set_solver).
  split_and!.
  - unfold emitted. by rewrite warnonce_run.
  - unfold emitted. by rewrite erroronce_run.
  - intros k. unfold emitted.
    rewrite (times_run _ _ g (S k) (warnonce_run frags g)).
    cbn [replicate snd].
    change (mkLogCall _ _ _ _ _) with warned.
    rewrite deliver_cons. cbn [fst].
    destruct (deliver1_fresh empty_cache warned WarnOnce body Hw (Hfresh _))
      as [-> Hin].
    by rewrite (deliver_replicate_seen _ warned WarnOnce body k Hw Hin).
  - apply deliver_at_most_once.
  - unfold emitted. rewrite run_bind, warnonce_run, erroronce_run.
    cbn [fst snd app].
    change (mkLogCall _ (logging.WARNING - 1) _ _ _) with warned.
    change (mkLogCall _ (logging.ERROR - 1) _ _ _) with erred.
    rewrite deliver_cons. cbn [fst].
    destruct (deliver1_fresh empty_cache warned WarnOnce body Hw (Hfresh _))
      as [-> Hin].
    rewrite deliver_cons. cbn [fst deliver app].
    assert (Hfresh' : body ∉ seen ErrorOnce (deliver1 empty_cache warned).2).
    { rewrite (deliver1_frame _ warned WarnOnce body ErrorOnce Hw) by done.
      apply Hfresh. }
    destruct (deliver1_fresh _ erred ErrorOnce body He Hfresh') as [-> _].
    done.
Qed.

(** *** The messaging functions on arbitrary fragments *)

Section FacadeProperties.
Context {R : Repr} {L : LogRecordAttributes}.
Implicit Types (args : list pyval) (frags : list string) (g : Globals).

Lemma join_nontext args :
  Exists (λ v, isinstance_str v = false) args → join args = Raise TypeError.
Proof.
  induction args as [|v args IH]; intros Hex; [by apply Exists_nil in Hex|].
  apply Exists_cons in Hex. destruct v as [| | |s]; try done.
  destruct Hex as [Hv|Hrest]; [done|]. cbn. by rewrite IH.
Qed.

Lemma join_raises args e : join args = Raise e → e = TypeError.
Proof.
  revert e. induction args as [|v args IH]; intros e; [done|].
  destruct v as [| | |s]; cbn; try by intros [= <-].
  destruct (join args) as [t|e']; [done|]. intros [= <-]. by apply IH.
Qed.

Lemma append_nil_r (s : string) : s +:+ "" = s.
Proof.
  induction s as [|c s IH]; [done|].
  change (String c (s +:+ "") = String c s). by rewrite IH.
Qed.

Lemma append_assoc (s t u : string) : (s +:+ t) +:+ u = s +:+ (t +:+ u).
Proof.
  induction s as [|c s IH]; [done|].
  change (String c ((s +:+ t) +:+ u) = String c (s +:+ (t +:+ u))).
  by rewrite IH.
Qed.

Lemma concat_text_app frags1 frags2 :
  concat_text (frags1 ++ frags2) = concat_text frags1 +:+ concat_text frags2.
Proof.
  induction frags1 as [|s frags1 IH]; [done|].
  change (s +:+ concat_text (frags1 ++ frags2)
          = (s +:+ concat_text frags1) +:+ concat_text frags2).
  by rewrite IH, append_assoc.
Qed.

Lemma concat_text_single (s : string) : concat_text [s] = s.
Proof. apply append_nil_r. Qed.

(** X1: a fragment that is not a string makes every messaging function
    raise [TypeError] before anything reaches the sink; [fatal] then
    raises the [TypeError] and not [BBHandledException].  Only [debug]
    called with a string as level has already logged its warning. *)
Theorem facade_nontext_fragment args (kw : list (string * pyval)) g (n : Z)
    (s : string) :
  Exists (λ v, isinstance_str v = false) args →
  bb.plain args g = (Raise TypeError, []) ∧
  bb.note args g = (Raise TypeError, []) ∧
  bb.verbnote args g = (Raise TypeError, []) ∧
  bb.warn args g = (Raise TypeError, []) ∧
  bb.warnonce args g = (Raise TypeError, []) ∧
  bb.error args kw g = (Raise TypeError, []) ∧
  bb.erroronce args g = (Raise TypeError, []) ∧
  bb.fatal args kw g = (Raise TypeError, []) ∧
  bb.debug (PyInt n) args g = (Raise TypeError, []) ∧
  bb.debug (PyStr s) args g
  = (Raise TypeError, [invalid_level_record (PyStr s)]).
Proof.
  intros Hex. pose proof (join_nontext args Hex) as Hjoin.
  unfold bb.plain, bb.note, bb.verbnote, bb.warn, bb.warnonce, bb.error,
    bb.erroronce, bb.fatal.
  rewrite !run_lift_bind, Hjoin. split_and!; try done.
  - unfold bb.debug. cbn [isinstance_str]. rewrite run_bind, run_ret.
    cbn [fst snd app]. by rewrite run_lift_bind, Hjoin.
  - unfold bb.debug. cbn [isinstance_str].
    rewrite run_bind, run_bind, run_ret.
    cbn [Logger.warning Logger.log emit fst snd app].
    rewrite run_lift_bind. cbn [join]. by rewrite Hjoin.
Qed.

(** The run of a messaging function that joins its fragments and logs
    the body on the main logger. *)
Lemma text_run frags (k : string → M unit) g :
  (body ← lift (join (PyStr <$> frags)); k body) g = k (concat_text frags) g.
Proof. by rewrite run_lift_bind, join_text. Qed.

(** X2: on text fragments, [plain], [note], [verbnote] and [warn] each
    hand exactly one record to the sink, on the main logger, with the
    concatenation of the fragments as body, and return; so does [error],
    passing its keyword arguments as [extra], when none of their names is
    refused by the record.  Their levels are ordered
    note < plain < verbnote < warn < error. *)
Theorem facade_one_record frags (kw : list (string * pyval)) g :
  let record level extra :=
    mkLogCall "BitBake.Main" level (PyStr (concat_text frags)) [] extra in
  bb.note (PyStr <$> frags) g = (Ok tt, [record logging.INFO []]) ∧
  bb.plain (PyStr <$> frags) g = (Ok tt, [record (logging.INFO + 1) []]) ∧
  bb.verbnote (PyStr <$> frags) g = (Ok tt, [record (logging.INFO + 2) []]) ∧
  bb.warn (PyStr <$> frags) g = (Ok tt, [record logging.WARNING []]) ∧
  (Forall (λ key, overwrites key = false) kw.*1 →
   bb.error (PyStr <$> frags) kw g
   = (Ok tt, [record logging.ERROR [("extra", KwDict kw)]])) ∧
  logging.INFO < logging.INFO + 1 < logging.INFO + 2 ∧
  logging.INFO + 2 < logging.WARNING < logging.ERROR.
Proof.
  intros record.
  unfold bb.note, bb.plain, bb.verbnote, bb.warn.
  rewrite !text_run. split_and!; try done.
  intros Hkeys. apply makeRecord_extra_accepts in Hkeys.
  by rewrite error_run, join_text, Hkeys.
Qed.

(** X3: how the text is cut into fragments does not matter: every
    messaging function run on two groups of fragments behaves as on the
    single fragment made of their concatenation, and no fragments at all
    behave as one empty fragment. *)
Theorem facade_fragment_grouping frags1 frags2 (kw : list (string * pyval))
    g (n : Z) :
  let whole := [PyStr (concat_text frags1 +:+ concat_text frags2)] in
  let split := PyStr <$> (frags1 ++ frags2) in
  bb.plain split g = bb.plain whole g ∧
  bb.note split g = bb.note whole g ∧
  bb.verbnote split g = bb.verbnote whole g ∧
  bb.warn split g = bb.warn whole g ∧
  bb.warnonce split g = bb.warnonce whole g ∧
  bb.error split kw g = bb.error whole kw g ∧
  bb.erroronce split g = bb.erroronce whole g ∧
  bb.fatal split kw g = bb.fatal whole kw g ∧
  bb.debug (PyInt n) split g = bb.debug (PyInt n) whole g ∧
  bb.note [] g = bb.note [PyStr ""] g.
Proof.
  intros whole split.
  assert (Hwhole : whole = PyStr <$> [concat_text frags1 +:+ concat_text frags2])
    by done.
  assert (Hbody : concat_text (frags1 ++ frags2)
                  = concat_text [concat_text frags1 +:+ concat_text frags2])
    by (by rewrite concat_text_single, concat_text_app).
  unfold split. rewrite Hwhole.
  unfold bb.plain, bb.note, bb.verbnote, bb.warn, bb.warnonce, bb.error,
    bb.erroronce, bb.fatal.
  rewrite !text_run, Hbody. split_and!; try done.
  by rewrite !debug_int_run, Hbody.
Qed.

(** X4: [fatal] hands to the sink the record [error] would, moved to
    CRITICAL; it raises [BBHandledException] exactly when [error] returns
    normally, and otherwise raises what [error] raises. *)
Theorem fatal_is_error_at_critical args (kw : list (string * pyval)) g :
  emitted (bb.fatal args kw) g
  = (λ r, mkLogCall (lc_logger r) logging.CRITICAL (lc_msg r) (lc_args r)
            (lc_kwargs r)) <$> emitted (bb.error args kw) g ∧
  (outcome (bb.error args kw) g = Ok tt →
   outcome (bb.fatal args kw) g = Raise BBHandledException) ∧
  (∀ e, outcome (bb.error args kw) g = Raise e →
        outcome (bb.fatal args kw) g = Raise e ∧ is_handled e = false).
Proof.
  unfold emitted, outcome. rewrite fatal_run, error_run.
  destruct (join args) as [body|e] eqn:Hjoin.
  - destruct (makeRecord_extra kw) as [[]|e] eqn:Hextra; cbn.
    + split_and!; [done | done | by intros e [=]].
    + split_and!; [done | by intros [=] |].
      intros e' [= <-].
      by destruct (makeRecord_extra_raises kw e Hextra) as (key & -> & _).
  - cbn. split_and!; [done | by intros [=] |].
    intros e' [= <-]. apply join_raises in Hjoin as ->. done.
Qed.

End FacadeProperties.

Lemma facade_nontext_fragment_witness :
  Exists (λ v, isinstance_str v = false) [PyStr "x"; PyInt 3] ∧
  bb.fatal (L := sample_attributes) [PyStr "x"; PyInt 3] [] sample_primary
  = (Raise TypeError, []) ∧
  bb.debug (R := sample_repr) (PyStr "oops") [PyStr "x"; PyInt 3]
    sample_primary
  = (Raise TypeError, [invalid_level_record (PyStr "oops")]).
Proof.
  assert (Hex : Exists (λ v, isinstance_str v = false) [PyStr "x"; PyInt 3])
    by (right; left; reflexivity).
  destruct (facade_nontext_fragment (R := sample_repr)
              (L := sample_attributes)
              [PyStr "x"; PyInt 3] [] sample_primary 1 "oops" Hex)
    as (_ & _ & _ & _ & _ & _ & _ & Hfatal & _ & Hdebug).
  exact (conj Hex (conj Hfatal Hdebug)).
Defined.

Lemma facade_one_record_witness :
  Forall (λ key, overwrites (L := sample_attributes) key = false)
    [("recipe", PyStr "busybox")].*1 ∧
  bb.error (L := sample_attributes) [PyStr "no "; PyStr "space"]
    [("recipe", PyStr "busybox")] sample_primary
  = (Ok tt,
     [mkLogCall "BitBake.Main" 40 (PyStr "no space") []
        [("extra", KwDict [("recipe", PyStr "busybox")])]]).
Proof.
  assert (Hkeys : Forall (λ key, overwrites (L := sample_attributes) key
                                 = false) [("recipe", PyStr "busybox")].*1)
    by (repeat constructor).
  split; [exact Hkeys|].
  exact (proj1 (proj2 (proj2 (proj2 (proj2
           (facade_one_record (L := sample_attributes) ["no "; "space"]
              [("recipe", PyStr "busybox")] sample_primary))))) Hkeys).
Defined.

Lemma fatal_is_error_at_critical_witness :
  outcome (bb.error (L := sample_attributes) [PyStr "x"] []) sample_primary
  = Ok tt ∧
  outcome (bb.fatal (L := sample_attributes) [PyStr "x"] []) sample_primary
  = Raise BBHandledException ∧
  outcome (bb.error (L := sample_attributes) [PyStr "x"]
             [("name", PyStr "y")]) sample_primary
  = Raise (KeyError "name") ∧
  outcome (bb.fatal (L := sample_attributes) [PyStr "x"]
             [("name", PyStr "y")]) sample_primary
  = Raise (KeyError "name").
Proof.
  assert (Hok : outcome (bb.error (L := sample_attributes) [PyStr "x"] [])
                  sample_primary = Ok tt) by reflexivity.
  assert (Hraise : outcome (bb.error (L := sample_attributes) [PyStr "x"]
                              [("name", PyStr "y")]) sample_primary
                   = Raise (KeyError "name")) by reflexivity.
  split; [exact Hok|]. split.
  - exact (proj1 (proj2 (fatal_is_error_at_critical (L := sample_attributes)
                           [PyStr "x"] [] sample_primary)) Hok).
  - split; [exact Hraise|].
    exact (proj1 (proj2 (proj2 (fatal_is_error_at_critical
                                  (L := sample_attributes) [PyStr "x"]
                                  [("name", PyStr "y")] sample_primary))
                    _ Hraise)).
Defined.

(** *** More on [bbdebug] and the logger classes *)

Section LoggerProperties.
Context {R : Repr}.
Implicit Types (self : Logger) (g : Globals) (msg level : pyval) (n : Z).

Lemma setup_bblogger_name self nm : name (setup_bblogger self nm) = name self.
Proof. unfold setup_bblogger. by destruct (String.eqb _ _). Qed.

(** X5: the level of [bbdebug] has to be a number: with [None] or a
    string as level the call raises [TypeError] at its first line, in
    either role, before the filter, the argument check or the sink are
    reached ([bb.debug(None, ...)] raises it whatever the fragments); a
    [bool] counts as the integer it stands for. *)
Theorem bbdebug_level_typing self level msg args kw g :
  (int_value level = None →
   bbdebug self level msg args kw g = (Raise TypeError, [])) ∧
  (∀ fragments, bb.debug PyNone fragments g = (Raise TypeError, [])) ∧
  (∀ b m,
     bbdebug self (PyBool b) (PyStr m) args kw g
     = bbdebug self (PyInt (Z.b2z b)) (PyStr m) args kw g).
Proof.
  split_and!.
  - intros Hlevel. unfold bbdebug. rewrite run_lift_bind.
    by destruct level.
  - intros fragments. unfold bb.debug. cbn [isinstance_str].
    rewrite run_bind, run_ret. cbn [fst snd app]. rewrite run_lift_bind.
    destruct (join fragments) as [body|e] eqn:Hjoin.
    + unfold bbdebug. by rewrite run_lift_bind.
    + by apply join_raises in Hjoin as ->.
  - intros b m. unfold bbdebug. by rewrite !run_lift_bind.
Qed.

(** X6: [bbdebug] at an integer level, called without keyword arguments,
    always returns normally.  When the record is forwarded (a worker, or
    an admitted level) and the message is not a string, the warning about
    the arguments goes to the main logger just before the record; when
    the controller suppresses the level, an invalid message is not
    reported either. *)
Theorem bbdebug_argument_check self n msg args g :
  let record := mkLogCall (name self) (logging.DEBUG - n + 1) msg args [] in
  let complaint := invalid_arguments_record (PyInt n) msg args in
  outcome (bbdebug self (PyInt n) msg args []) g = Ok tt ∧
  (truthy (worker_pid g) = true ∨
   admits g (name self) (logging.DEBUG - n + 1) →
   emitted (bbdebug self (PyInt n) msg args []) g
   = if isinstance_str msg then [record] else [complaint; record]) ∧
  (truthy (worker_pid g) = false →
   suppresses g (name self) (logging.DEBUG - n + 1) →
   emitted (bbdebug self (PyInt n) msg args []) g = []).
Proof.
  intros record complaint. unfold outcome, emitted. rewrite bbdebug_int.
  cbv zeta. fold record. fold complaint.
  pose proof (filter_test_spec g (name self) (logging.DEBUG - n + 1)) as Htest.
  split_and!.
  - by destruct (_ && _).
  - intros [Hworker|Hadmits].
    + rewrite Hworker. cbn. by destruct (isinstance_str msg).
    + destruct (admits_or_suppresses g (name self) (logging.DEBUG - n + 1))
        as [[_ Hs]|[_ Ha]]; [|done].
      destruct (_ || _); [by destruct Hs; apply Htest|].
      rewrite andb_false_r. cbn. by destruct (isinstance_str msg).
  - intros Hprimary Hs. apply Htest in Hs. by rewrite Hprimary, Hs.
Qed.

(** X7: in the controller the levels [n] that [bbdebug] forwards for a
    logger form a window: without a table entry, all [n] up to
    [DEBUG + 1 - floor]; with threshold [T], the [n] from [DEBUG + 1 - T]
    up to that bound.  So between two forwarded levels every level is
    forwarded. *)
Theorem bbdebug_verbosity_window self msg args kw g :
  truthy (worker_pid g) = false →
  let forwarded n := emitted (bbdebug self (PyInt n) msg args kw) g ≠ [] in
  let floor := loggerDefaultLogLevel g in
  (loggerDefaultDomains g !! name self = None →
   ∀ n, forwarded n ↔ n ≤ logging.DEBUG + 1 - floor) ∧
  (∀ T, loggerDefaultDomains g !! name self = Some T →
        ∀ n, forwarded n ↔
             logging.DEBUG + 1 - T ≤ n ≤ logging.DEBUG + 1 - floor) ∧
  (∀ n1 n n2, n1 ≤ n ≤ n2 → forwarded n1 → forwarded n2 → forwarded n).
Proof.
  intros Hprimary forwarded floor.
  assert (Hfwd : ∀ n, forwarded n ↔
                      ¬ suppresses g (name self) (logging.DEBUG - n + 1)).
  { intros n. unfold forwarded, emitted. rewrite bbdebug_int, Hprimary.
    cbv zeta. cbn [negb andb].
    pose proof (filter_test_spec g (name self) (logging.DEBUG - n + 1))
      as Htest.
    destruct (_ || _).
    - split; [done|]. intros Hs. destruct Hs. by apply Htest.
    - split.
      + intros _ Hs. by apply Htest in Hs.
      + intros _. cbn. by destruct (isinstance_str msg). }
  assert (Hnone : loggerDefaultDomains g !! name self = None →
                  ∀ n, forwarded n ↔ n ≤ logging.DEBUG + 1 - floor).
  { intros Hdom n. rewrite Hfwd. unfold suppresses, floor. rewrite Hdom.
    split.
    - intros Hnot. destruct (Z_le_gt_dec n (logging.DEBUG + 1
                               - loggerDefaultLogLevel g)); [done|].
      destruct Hnot. right. lia.
    - intros Hle [(T & ? & _)|?]; [done | lia]. }
  assert (Hsome : ∀ T, loggerDefaultDomains g !! name self = Some T →
                       ∀ n, forwarded n ↔
                            logging.DEBUG + 1 - T ≤ n
                            ≤ logging.DEBUG + 1 - floor).
  { intros T Hdom n. rewrite Hfwd. unfold suppresses, floor. rewrite Hdom.
    split.
    - intros Hnot. split.
      + destruct (Z_le_gt_dec (logging.DEBUG + 1 - T) n); [done|].
        destruct Hnot. left. exists T. split; [done | lia].
      + destruct (Z_le_gt_dec n (logging.DEBUG + 1
                    - loggerDefaultLogLevel g)); [done|].
        destruct Hnot. right. lia.
    - intros [Hlo Hhi] [(T' & [= <-] & ?)|?]; lia. }
  split_and!; [done | done |].
  intros n1 n n2 [Hlo Hhi] H1 H2.
  destruct (loggerDefaultDomains g !! name self) as [T|] eqn:Hdom.
  - apply (Hsome T eq_refl). apply (Hsome T eq_refl) in H1, H2. lia.
  - apply (Hnone eq_refl). apply (Hnone eq_refl) in H2. lia.
Qed.

(** X8: [_debug_helper], [debug2] and [debug3] called without a message,
    positional or by keyword, raise [TypeError] and emit nothing; with a
    positional one they are [bbdebug] at the levels 1, 2 and 3.  The
    level [bbdebug(n)] logs at is at or above the level set on the
    "BitBake" logger exactly for [n ≤ 3], and at [n = 3] it is that
    level. *)
Theorem debug_helpers self msg args kw g n :
  ("msg" ∉ kw.*1 →
   _debug_helper self [] kw g = (Raise TypeError, []) ∧
   debug2 self [] kw g = (Raise TypeError, []) ∧
   debug3 self [] kw g = (Raise TypeError, [])) ∧
  _debug_helper self (msg :: args) kw = bbdebug self (PyInt 1) msg args kw ∧
  debug2 self (msg :: args) kw = bbdebug self (PyInt 2) msg args kw ∧
  debug3 self (msg :: args) kw = bbdebug self (PyInt 3) msg args kw ∧
  loglevel_of (PyInt 3) = Ok logger_level ∧
  ((∃ lvl, loglevel_of (PyInt n) = Ok lvl ∧ logger_level ≤ lvl) ↔ n ≤ 3).
Proof.
  split_and!; try done.
  rewrite loglevel_of_int. unfold logger_level, logging.DEBUG. split.
  - intros (lvl & [= <-] & Hle). lia.
  - intros Hn. eexists. split; [done | lia].
Qed.

(** X9: a logger created under a name whose first segment is not
    "BitBake" keeps the stock [debug]: its record, at DEBUG, reaches the
    sink whatever the role, the table and the floor.  A logger of the
    "BitBake" hierarchy has its [debug] filtered: in the controller a
    suppressed DEBUG(1) emits nothing.  Either way the logger keeps the
    name it was created with. *)
Theorem created_logger_debug (nm : string) msg args kw g :
  name (BBLogger nm) = nm ∧
  (item0 (split "." nm) ≠ "BitBake" →
   call_debug (BBLogger nm) (msg :: args) kw g
   = (Ok tt, [mkLogCall nm logging.DEBUG msg args kw])) ∧
  (item0 (split "." nm) = "BitBake" →
   truthy (worker_pid g) = false →
   suppresses g nm logging.DEBUG →
   call_debug (BBLogger nm) (msg :: args) kw g = (Ok tt, [])).
Proof.
  split_and!.
  - apply setup_bblogger_name.
  - intros Hne. unfold BBLogger, setup_bblogger.
    apply String.eqb_neq in Hne. by rewrite Hne.
  - intros Hbb Hprimary Hs.
    unfold BBLogger, setup_bblogger. rewrite Hbb, String.eqb_refl.
    unfold call_debug, _debug_helper, bbdebug_star. cbn [debug_attr].
    rewrite bbdebug_int, Hprimary. cbv zeta. cbn [name negb andb].
    change (logging.DEBUG - 1 + 1) with logging.DEBUG.
    apply (filter_test_spec g nm logging.DEBUG) in Hs. by rewrite Hs.
Qed.

(** X10: [setup_bblogger] never changes the name, never takes the
    installed helper away again whatever name it is called with, and is
    idempotent; an adapter gets the [debug] binding a logger of the
    wrapped logger's name gets. *)
Theorem setup_bblogger_stable self (nm nm' : string) :
  name (setup_bblogger self nm) = name self ∧
  (debug_attr self = DebugHelper →
   debug_attr (setup_bblogger self nm') = DebugHelper) ∧
  setup_bblogger (setup_bblogger self nm) nm = setup_bblogger self nm ∧
  BBLoggerAdapter self = BBLogger (name self).
Proof.
  split_and!.
  - apply setup_bblogger_name.
  - intros Hhelper. unfold setup_bblogger. by destruct (String.eqb _ _).
  - unfold setup_bblogger. by destruct (String.eqb _ _) eqn:Heq; rewrite ?Heq.
  - done.
Qed.

End LoggerProperties.

Lemma bbdebug_level_typing_witness :
  int_value (PyStr "2") = None ∧
  bbdebug (R := sample_repr) mainlogger (PyStr "2") (PyStr "x") [] []
    sample_worker
  = (Raise TypeError, []).
Proof.
  assert (Hlevel : int_value (PyStr "2") = None) by reflexivity.
  split; [exact Hlevel|].
  exact (proj1 (bbdebug_level_typing (R := sample_repr) mainlogger
                  (PyStr "2") (PyStr "x") [] [] sample_worker) Hlevel).
Defined.

Lemma bbdebug_argument_check_witness :
  (truthy (worker_pid sample_worker) = true ∧
   emitted (bbdebug (R := sample_repr) mainlogger (PyInt 1) (PyInt 7) [] [])
     sample_worker
   = [invalid_arguments_record (R := sample_repr) (PyInt 1) (PyInt 7) [];
      mkLogCall "BitBake.Main" 10 (PyInt 7) [] []]) ∧
  (truthy (worker_pid sample_primary) = false ∧
   suppresses sample_primary "BitBake.Main" 10 ∧
   emitted (bbdebug (R := sample_repr) mainlogger (PyInt 1) (PyInt 7) [] [])
     sample_primary
   = []).
Proof.
  assert (Hw : truthy (worker_pid sample_worker) = true) by reflexivity.
  assert (Hp : truthy (worker_pid sample_primary) = false) by reflexivity.
  assert (Hs : suppresses sample_primary "BitBake.Main" 10)
    by (right; reflexivity).
  split.
  - split; [exact Hw|].
    exact (proj1 (proj2 (bbdebug_argument_check (R := sample_repr) mainlogger
                           1 (PyInt 7) [] sample_worker)) (or_introl Hw)).
  - split; [exact Hp|]. split; [exact Hs|].
    exact (proj2 (proj2 (bbdebug_argument_check (R := sample_repr) mainlogger
                           1 (PyInt 7) [] sample_primary)) Hp Hs).
Defined.

Lemma bbdebug_verbosity_window_witness :
  truthy (worker_pid sample_primary_domain) = false ∧
  loggerDefaultDomains sample_primary_domain !! "BitBake.Main" = Some 9 ∧
  (emitted (bbdebug (R := sample_repr) mainlogger (PyInt 5) (PyStr "x") [] [])
     sample_primary_domain ≠ [] ↔
   logging.DEBUG + 1 - 9 ≤ 5 ≤ logging.DEBUG + 1 - 0).
Proof.
  assert (Hp : truthy (worker_pid sample_primary_domain) = false)
    by reflexivity.
  assert (Hd : loggerDefaultDomains sample_primary_domain !! "BitBake.Main"
               = Some 9) by reflexivity.
  split; [exact Hp|]. split; [exact Hd|].
  exact (proj1 (proj2 (bbdebug_verbosity_window (R := sample_repr) mainlogger
                         (PyStr "x") [] [] sample_primary_domain Hp))
           9 Hd 5).
Defined.

Lemma debug_helpers_witness :
  (3 ≤ 3 ∧ ∃ lvl, loglevel_of (PyInt 3) = Ok lvl ∧ logger_level ≤ lvl) ∧
  (("msg" ∉ [("stacklevel", KwVal (PyInt 2))].*1) ∧
   debug2 (R := sample_repr) mainlogger [] [("stacklevel", KwVal (PyInt 2))]
     sample_worker
   = (Raise TypeError, [])).
Proof.
  assert (Hn : 3 ≤ 3) by lia.
  assert (Hkw : "msg" ∉ [("stacklevel", KwVal (PyInt 2))].*1).
  { intros Hin. apply list_elem_of_singleton in Hin. discriminate Hin. }
  split.
  - split; [exact Hn|].
    exact (proj2 (proj2 (proj2 (proj2 (proj2 (proj2
             (debug_helpers (R := sample_repr) mainlogger (PyStr "x") [] []
                sample_worker 3)))))) Hn).
  - split; [exact Hkw|].
    exact (proj1 (proj2 (proj1
             (debug_helpers (R := sample_repr) mainlogger (PyStr "x") []
                [("stacklevel", KwVal (PyInt 2))] sample_worker 3) Hkw))).
Defined.

Lemma created_logger_debug_witness :
  (item0 (split "." "py.warnings") ≠ "BitBake" ∧
   call_debug (R := sample_repr) (BBLogger "py.warnings") [PyStr "x"] []
     sample_primary
   = (Ok tt, [mkLogCall "py.warnings" 10 (PyStr "x") [] []])) ∧
  (item0 (split "." "BitBake.Fetcher") = "BitBake" ∧
   truthy (worker_pid sample_primary) = false ∧
   suppresses sample_primary "BitBake.Fetcher" logging.DEBUG ∧
   call_debug (R := sample_repr) (BBLogger "BitBake.Fetcher") [PyStr "x"] []
     sample_primary
   = (Ok tt, [])).
Proof.
  assert (Hpy : item0 (split "." "py.warnings") ≠ "BitBake")
    by (vm_compute; discriminate).
  assert (Hbb : item0 (split "." "BitBake.Fetcher") = "BitBake")
    by reflexivity.
  assert (Hp : truthy (worker_pid sample_primary) = false) by reflexivity.
  assert (Hs : suppresses sample_primary "BitBake.Fetcher" logging.DEBUG)
    by (right; reflexivity).
  split.
  - split; [exact Hpy|].
    exact (proj1 (proj2 (created_logger_debug (R := sample_repr)
                           "py.warnings" (PyStr "x") [] [] sample_primary))
             Hpy).
  - split; [exact Hbb|]. split; [exact Hp|]. split; [exact Hs|].
    exact (proj2 (proj2 (created_logger_debug (R := sample_repr)
                           "BitBake.Fetcher" (PyStr "x") [] []
                           sample_primary)) Hbb Hp Hs).
Defined.

Lemma setup_bblogger_stable_witness :
  debug_attr mainlogger = DebugHelper ∧
  debug_attr (setup_bblogger mainlogger "py.warnings") = DebugHelper.
Proof.
  assert (Hh : debug_attr mainlogger = DebugHelper) by reflexivity.
  split; [exact Hh|].
  exact (proj1 (proj2 (setup_bblogger_stable mainlogger "" "py.warnings")) Hh).
Defined.

(** *** More on the fork-context proxy *)

Section ProxyFrame.
Context {Obj : Type}.
Implicit Types (mp fork_context : gmap string Obj) (nm k : string).

Import MultiprocessingContext.

(** X11: a lookup on the proxy depends on the two providers' bindings of
    that one name only.  The fork context shadows the module: rebinding
    or removing, in the [multiprocessing] module, a name the fork context
    defines changes no lookup.  With nothing in the fork context the
    proxy answers as the module itself, and what a lookup returns is
    always an attribute of one of the two providers. *)
Theorem proxy_shadowing mp (self : t) nm k (value : Obj) :
  (is_Some (_ctx self !! k) →
   __getattr__ (<[k := value]> mp) self nm = __getattr__ mp self nm ∧
   __getattr__ (delete k mp) self nm = __getattr__ mp self nm) ∧
  (k ≠ nm →
   __getattr__ (<[k := value]> mp) self nm = __getattr__ mp self nm ∧
   __getattr__ mp (mk (<[k := value]> (_ctx self))) nm
   = __getattr__ mp self nm) ∧
  __getattr__ mp (mk ∅) nm = getattr "module 'multiprocessing'" mp nm ∧
  (∀ o, __getattr__ mp self nm = Ok o →
        _ctx self !! nm = Some o ∨
        (_ctx self !! nm = None ∧ mp !! nm = Some o)).
Proof.
  split_and!.
  - intros [o Hk]. unfold __getattr__, hasattr.
    destruct (decide (k = nm)) as [->|Hne].
    + by rewrite Hk.
    + unfold getattr. by rewrite lookup_insert_ne, lookup_delete_ne.
  - intros Hne. unfold __getattr__, hasattr, getattr. cbn [_ctx].
    by rewrite !lookup_insert_ne.
  - unfold __getattr__, hasattr. cbn [_ctx]. by rewrite lookup_empty.
  - intros o. unfold __getattr__, hasattr, getattr.
    destruct (_ctx self !! nm) as [o'|]; [intros [= <-]; by left|].
    destruct (mp !! nm) as [o'|]; [intros [= <-]; by right | done].
Qed.

End ProxyFrame.

Lemma proxy_shadowing_witness :
  is_Some (sample_fork !! "Lock") ∧
  MultiprocessingContext.__getattr__ (<["Lock" := "patched"]> sample_mp)
    (MultiprocessingContext.multiprocessing sample_fork) "Lock"
  = Ok "fork.Lock".
Proof.
  assert (Hk : is_Some (sample_fork !! "Lock")) by (eexists; reflexivity).
  split; [exact Hk|].
  rewrite (proj1 (proj1 (proxy_shadowing sample_mp
                           (MultiprocessingContext.multiprocessing sample_fork)
                           "Lock" "Lock" "patched") Hk)).
  reflexivity.
Defined.

(** *** [PrefixLoggerAdapter.process] *)

Lemma append_cancel_l (p a b : string) : p +:+ a = p +:+ b → a = b.
Proof.
  induction p as [|c p IH]; [done|].
  change (String c (p +:+ a) = String c (p +:+ b) → a = b).
  intros [= Heq]. by apply IH.
Qed.

(** X12: [process] leaves the keyword arguments alone and always yields
    a text message, the text of the prefix followed by the text of the
    message.  Processing by one adapter and then by another is processing
    by a single adapter whose prefix is the second prefix followed by the
    first, and for a given prefix distinct text messages stay distinct.
    The adapter's [debug] binding is the one a logger of the wrapped
    logger's name gets. *)
Theorem process_prefix (prefix msg : pyval) (wrapped : Logger) (kw : kwargs) :
  let self := PrefixLoggerAdapter.__init__ prefix wrapped in
  (PrefixLoggerAdapter.process self msg kw).2 = kw ∧
  (PrefixLoggerAdapter.process self msg kw).1
  = PyStr (py_str prefix +:+ py_str msg) ∧
  (∀ outer : string,
     PrefixLoggerAdapter.process
       (PrefixLoggerAdapter.__init__ (PyStr outer) wrapped)
       (PrefixLoggerAdapter.process self msg kw).1 kw
     = PrefixLoggerAdapter.process
         (PrefixLoggerAdapter.__init__ (PyStr (outer +:+ py_str prefix))
            wrapped) msg kw) ∧
  (∀ m1 m2 : string,
     PrefixLoggerAdapter.process self (PyStr m1) kw
     = PrefixLoggerAdapter.process self (PyStr m2) kw → m1 = m2) ∧
  PrefixLoggerAdapter.adapter self = BBLogger (name wrapped).
Proof.
  intros self. split_and!; try done.
  - intros outer. unfold PrefixLoggerAdapter.process. cbn.
    by rewrite append_assoc.
  - intros m1 m2. unfold PrefixLoggerAdapter.process. cbn.
    intros [= Heq]. by apply append_cancel_l in Heq.
Qed.

Lemma process_prefix_witness :
  PrefixLoggerAdapter.process
    (PrefixLoggerAdapter.__init__ (PyStr "fetch: ") mainlogger)
    (PyStr "a") []
  = PrefixLoggerAdapter.process
      (PrefixLoggerAdapter.__init__ (PyStr "fetch: ") mainlogger)
      (PyStr "a") [] ∧
  "a" = "a".
Proof.
  assert (Heq : PrefixLoggerAdapter.process
                  (PrefixLoggerAdapter.__init__ (PyStr "fetch: ") mainlogger)
                  (PyStr "a") []
                = PrefixLoggerAdapter.process
                    (PrefixLoggerAdapter.__init__ (PyStr "fetch: ") mainlogger)
                    (PyStr "a") []) by reflexivity.
  split; [exact Heq|].
  exact (proj1 (proj2 (proj2 (proj2 (process_prefix (PyStr "fetch: ")
                                       (PyStr "b") mainlogger []))))
           "a" "a" Heq).
Defined.

(** *** The interpreter version test *)

Lemma tuple_lt_version (major minor micro serial : Z) (rl : string)
    (a b c : Z) :
  tuple_lt (version_info_of major minor micro rl serial)
    [PyInt a; PyInt b; PyInt c]
  = Ok (if major =? a
        then if minor =? b
             then if micro =? c then false else micro <? c
             else minor <? b
        else major <? a).
Proof.
  unfold version_info_of. cbn [tuple_lt py_eq py_lt int_value].
  by destruct (major =? a), (minor =? b), (micro =? c).
Qed.

(** X13: for the version tuple of an interpreter (micro not negative),
    the module's first lines raise [RuntimeError] exactly on versions
    before 3.9, load [libgcc_s.so.1] exactly on the versions 3.9.x, and do
    nothing from 3.10 on; the release level and the serial play no
    part. *)
Theorem version_check_python (major minor micro serial : Z) (rl : string) :
  0 ≤ micro →
  let run := version_check (version_info_of major minor micro rl serial) in
  ((∃ msg, run = (Fail (RuntimeError msg), [])) ↔
   major < 3 ∨ (major = 3 ∧ minor < 9)) ∧
  (run = (Done tt, [LoadLibrary "libgcc_s.so.1"]) ↔ major = 3 ∧ minor = 9) ∧
  (run = (Done tt, []) ↔ 3 < major ∨ (major = 3 ∧ 10 ≤ minor)).
Proof.
  intros Hmicro run. unfold run, version_check. rewrite !tuple_lt_version.
  destruct (Z.eqb_spec major 3) as [->|Hmajor].
  - destruct (Z.eqb_spec minor 9) as [->|Hm9].
    + destruct (Z.eqb_spec micro 0) as [->|Hmi].
      * cbn. split_and!; split; try done; try lia; try by intros [? ?].
      * destruct (Z.ltb_spec micro 0); [lia|]. cbn.
        split_and!; split; try done; try lia; try by intros [? ?].
    + destruct (Z.ltb_spec minor 9).
      * split_and!; split; try done; try lia; eauto.
      * destruct (Z.eqb_spec minor 10) as [->|Hm10].
        -- destruct (Z.eqb_spec micro 0) as [->|Hmi].
           ++ split_and!; split; try done; try lia; try by intros [? ?].
           ++ destruct (Z.ltb_spec micro 0); [lia|].
              split_and!; split; try done; try lia; try by intros [? ?].
        -- destruct (Z.ltb_spec minor 10); [lia|].
           split_and!; split; try done; try lia; try by intros [? ?].
  - destruct (Z.ltb_spec major 3).
    + split_and!; split; try done; try lia; eauto.
    + split_and!; split; try done; try lia; try by intros [? ?].
Qed.

Lemma version_check_python_witness :
  0 ≤ 18 ∧
  version_check (version_info_of 3 9 18 "final" 0)
  = (Done tt, [LoadLibrary "libgcc_s.so.1"]).
Proof.
  assert (Hmicro : 0 ≤ 18) by lia.
  split; [exact Hmicro|].
  exact (proj2 (proj1 (proj2 (version_check_python 3 9 18 0 "final" Hmicro)))
           (conj eq_refl eq_refl)).
Defined.

(** *** [deprecated] and [deprecate_import] *)

Section DeprecationProperties.
Context {A B : Type} {I : deprecation.Importer (A := A) (B := B)}.
Implicit Types (func obj : deprecation.pyfunc (A := A) (B := B)).
Implicit Types (modules : gmap string (gmap string (deprecation.pyfunc (A := A) (B := B)))).
Implicit Types (source target : gmap string (deprecation.pyfunc (A := A) (B := B))).
Implicit Types (fromlist : list string) (renames : option (list string)).

Import deprecation.

(** X14: the function [deprecated] returns keeps the name, the doc string
    and the attributes of the original, even when a display name is
    given.  A call issues one [DeprecationWarning] at stack level 2,
    before whatever the original issues, and returns what the original
    returns.  The warning names the display name, or the function's own
    name when none is given, and carries the advice after a colon only
    when there is advice.  Wrapping twice warns twice. *)
Theorem deprecated_wrapper func (shown : option string) (advice : string)
    (a : A) :
  let wrapped := deprecated func shown advice in
  let text :=
    "Call to deprecated function " +:+ default (__name__ func) shown
    +:+ (if decide (advice = "") then "" else ": " +:+ advice) +:+ "." in
  __name__ wrapped = __name__ func ∧
  __doc__ wrapped = __doc__ func ∧
  __dict__ wrapped = __dict__ func ∧
  (call wrapped a).2 = (call func a).2 ∧
  (call wrapped a).1
  = mkWarning text "DeprecationWarning" 2 :: (call func a).1 ∧
  ∀ shown' advice',
    __name__ (deprecated wrapped shown' advice') = __name__ func ∧
    length (call (deprecated wrapped shown' advice') a).1
    = S (S (length (call func a).1)).
Proof.
  intros wrapped text.
  assert (Hcall : call wrapped a
                  = (mkWarning text "DeprecationWarning" 2 :: (call func a).1,
                     (call func a).2)).
  { unfold wrapped, text, deprecated. cbn [call].
    destruct (call func a) as [issued b]. cbn [fst snd]. do 3 f_equal.
    destruct shown as [n|]; cbn [default];
      case_decide as Hadv; [subst advice | | subst advice |]; try done.
    - apply String.eqb_neq in Hadv. by rewrite Hadv.
    - apply String.eqb_neq in Hadv. by rewrite Hadv. }
  split_and!; try done.
  - unfold wrapped, deprecated. cbn [__dict__]. apply map_eq. intros k.
    rewrite lookup_union, lookup_empty. by destruct (__dict__ func !! k).
  - by rewrite Hcall.
  - by rewrite Hcall.
  - intros shown' advice'. split; [done|].
    unfold deprecated at 1. cbn [call]. rewrite Hcall. done.
Qed.

Lemma wrapper_call current modulename obj objname (a : A) :
  call (wrapper current modulename obj objname) a
  = (mkWarning
       ("Call to deprecated function " +:+ (current +:+ "." +:+ objname)
        +:+ (": " +:+ ("Please use " +:+ modulename +:+ "." +:+ objname
                       +:+ " instead")) +:+ ".")
       "DeprecationWarning" 2 :: (call obj a).1,
     (call obj a).2).
Proof.
  unfold wrapper, deprecated. cbn [call].
  by destruct (call obj a) as [issued b].
Qed.

(** While every name of a first part of [fromlist] is defined in the
    source module and has a new name, the loop installs that part and
    goes on with the rest. *)
Lemma deprecate_loop_app current modulename renames position
    (done_ rest : list string) modules source target :
  current ≠ modulename →
  modules !! modulename = Some source →
  modules !! current = Some target →
  Forall (λ n, is_Some (source !! n)) done_ →
  (∀ i n, done_ !! i = Some n →
          ∃ newname, newname_of renames (position + i) n = Done newname) →
  deprecate_loop current modulename renames position (done_ ++ rest) modules
  = deprecate_loop current modulename renames (position + length done_) rest
      (<[current := installs current modulename renames position source
                      done_ target]> modules).
Proof.
  intros Hne. revert position modules target.
  induction done_ as [|n done_ IH]; intros position modules target
    Hsource Htarget Hall Hnames.
  - cbn [app length installs]. rewrite Nat.add_0_r. by rewrite insert_id.
  - apply Forall_cons in Hall as [[obj Hobj] Hall].
    destruct (Hnames 0%nat n eq_refl) as [newname Hnew].
    rewrite Nat.add_0_r in Hnew.
    cbn [app deprecate_loop installs].
    rewrite Hsource, Hobj, Hnew, Htarget.
    rewrite IH with (target := <[newname := wrapper current modulename obj n]>
                                 target).
    + rewrite insert_insert_eq. cbn [length].
      by replace (S position + length done_)%nat
        with (position + S (length done_))%nat by lia.
    + by rewrite lookup_insert_ne.
    + by rewrite lookup_insert_eq.
    + done.
    + intros i n' Hi. destruct (Hnames (S i) n' Hi) as [newname' Hnew'].
      exists newname'. by replace (S position + i)%nat
        with (position + S i)%nat by lia.
Qed.

(** The import of a loaded module that has every listed name imports
    nothing. *)
Lemma import_loaded modulename fromlist modules source :
  modules !! modulename = Some source →
  Forall (λ n, is_Some (source !! n)) fromlist →
  __import__ modulename fromlist modules = (Done tt, modules).
Proof.
  intros Hsource Hall. unfold __import__. rewrite Hsource.
  assert (Htest : forallb (λ objname,
                             bool_decide (is_Some (source !! objname)))
                    fromlist = true).
  { apply forallb_forall. intros n Hn%list_elem_of_In.
    apply bool_decide_eq_true. rewrite Forall_forall in Hall. by apply Hall. }
  by rewrite Htest.
Qed.

Lemma deprecate_import_loaded current modulename fromlist renames modules
    source :
  modules !! modulename = Some source →
  Forall (λ n, is_Some (source !! n)) fromlist →
  deprecate_import current modulename fromlist renames modules
  = deprecate_loop current modulename renames 0 fromlist modules.
Proof.
  intros Hsource Hall. unfold deprecate_import.
  by rewrite (import_loaded modulename fromlist modules source).
Qed.

Lemma newname_of_falsy renames position objname :
  renames = None ∨ renames = Some [] →
  newname_of renames position objname = Done objname.
Proof. by intros [-> | ->]. Qed.

(** Without renames, the installed namespace binds each listed name to
    its wrapper and leaves the other names alone. *)
Lemma installs_lookup current modulename renames position source fromlist
    target :
  renames = None ∨ renames = Some [] →
  Forall (λ n, is_Some (source !! n)) fromlist →
  (∀ n obj, n ∈ fromlist → source !! n = Some obj →
            installs current modulename renames position source fromlist
              target !! n
            = Some (wrapper current modulename obj n)) ∧
  (∀ n, n ∉ fromlist →
        installs current modulename renames position source fromlist
          target !! n
        = target !! n).
Proof.
  intros Hfalsy. revert position target.
  induction fromlist as [|m fromlist IH]; intros position target Hall.
  - split; [by intros n obj ?%elem_of_nil | done].
  - apply Forall_cons in Hall as [[obj' Hobj'] Hall].
    cbn [installs]. rewrite Hobj', (newname_of_falsy _ _ _ Hfalsy).
    destruct (IH (S position)
                (<[m := wrapper current modulename obj' m]> target) Hall)
      as [IHin IHout].
    split.
    + intros n obj Hin Hobj.
      destruct (decide (n ∈ fromlist)) as [Hlater|Hnot].
      * by apply IHin.
      * apply elem_of_cons in Hin as [->|?]; [|done].
        rewrite IHout by done. rewrite lookup_insert_eq.
        by simplify_eq.
    + intros n Hnot. apply not_elem_of_cons in Hnot as [Hne Hnot].
      rewrite IHout by done. by rewrite lookup_insert_ne.
Qed.

(** X15: when the source module defines every listed name and no renames
    are given, [deprecate_import] returns normally; afterwards the module
    [current] binds each listed name to a wrapper of the source module's
    object and every other name as before, and the other modules,
    the source module among them, are untouched.  Calling an installed
    wrapper warns "Call to deprecated function current.name: Please use
    modulename.name instead." and returns what the original returns. *)
Theorem deprecate_import_installs current modulename fromlist renames
    modules source target :
  current ≠ modulename →
  modules !! modulename = Some source →
  modules !! current = Some target →
  Forall (λ n, is_Some (source !! n)) fromlist →
  renames = None ∨ renames = Some [] →
  ∃ target',
    deprecate_import current modulename fromlist renames modules
    = (Done tt, <[current := target']> modules) ∧
    (∀ m, m ≠ current →
          (<[current := target']> modules) !! m = modules !! m) ∧
    (∀ n, n ∉ fromlist → target' !! n = target !! n) ∧
    ∀ n obj, n ∈ fromlist → source !! n = Some obj →
      ∃ installed, target' !! n = Some installed ∧
        __name__ installed = __name__ obj ∧
        ∀ a, call installed a
             = (mkWarning
                  ("Call to deprecated function " +:+ (current +:+ "." +:+ n)
                   +:+ (": " +:+ ("Please use " +:+ modulename +:+ "." +:+ n
                                  +:+ " instead")) +:+ ".")
                  "DeprecationWarning" 2 :: (call obj a).1,
                (call obj a).2).
Proof.
  intros Hne Hsource Htarget Hall Hfalsy.
  exists (installs current modulename renames 0 source fromlist target).
  destruct (installs_lookup current modulename renames 0 source fromlist
              target Hfalsy Hall) as [Hin Hout].
  split_and!.
  - rewrite (deprecate_import_loaded _ _ _ _ _ source) by done.
    rewrite <-(app_nil_r fromlist) at 1.
    rewrite (deprecate_loop_app current modulename renames 0 fromlist []
               modules source target); try done.
    intros i n _. exists n. by apply newname_of_falsy.
  - intros m Hm. by rewrite lookup_insert_ne.
  - done.
  - intros n obj Hn Hobj. exists (wrapper current modulename obj n).
    split; [by apply Hin|]. split; [done|].
    intros a. apply wrapper_call.
Qed.

(** X16: when the source module lacks one of the listed names and the
    import system brings nothing in for the call (the name is no
    submodule it can import), [deprecate_import] raises [AttributeError]
    at the first such name, and by then the names listed before it are
    installed: the failure leaves the module [current] half updated. *)
Theorem deprecate_import_missing_attribute current modulename
    (before_ after_ : list string) (missing : string) renames modules
    source target :
  current ≠ modulename →
  modules !! modulename = Some source →
  modules !! current = Some target →
  Forall (λ n, is_Some (source !! n)) before_ →
  source !! missing = None →
  import_other modulename (before_ ++ missing :: after_) modules
  = (Done tt, modules) →
  renames = None ∨ renames = Some [] →
  ∃ target',
    deprecate_import current modulename (before_ ++ missing :: after_)
      renames modules
    = (Fail (Std (AttributeError
         ("module '" +:+ modulename +:+ "' has no attribute '" +:+ missing
          +:+ "'"))),
       <[current := target']> modules) ∧
    (∀ n obj, n ∈ before_ → source !! n = Some obj →
              target' !! n = Some (wrapper current modulename obj n)) ∧
    (∀ n, n ∉ before_ → target' !! n = target !! n).
Proof.
  intros Hne Hsource Htarget Hall Hmissing Himport Hfalsy.
  exists (installs current modulename renames 0 source before_ target).
  destruct (installs_lookup current modulename renames 0 source before_
              target Hfalsy Hall) as [Hin Hout].
  split_and!; [|done|done].
  assert (Hrun : __import__ modulename (before_ ++ missing :: after_) modules
                 = (Done tt, modules)).
  { unfold __import__. rewrite Hsource, Himport. by destruct (forallb _ _). }
  unfold deprecate_import. rewrite Hrun.
  rewrite (deprecate_loop_app current modulename renames 0 before_
             (missing :: after_) modules source target); try done.
  - cbn [deprecate_loop]. rewrite lookup_insert_ne by done.
    by rewrite Hsource, Hmissing.
  - intros i n _. exists n. by apply newname_of_falsy.
Qed.

(** X17: edge cases of [deprecate_import].  When the module is not
    loaded and the import system fails to import it, the call fails as
    the import does and installs nothing.  With nothing listed and the
    module loaded, the call returns and changes nothing, even if
    [current] is no loaded module.  With names listed that the loaded
    module all has, and [current] not loaded, the call raises a
    [KeyError] for [current] and changes nothing. *)
Theorem deprecate_import_edges current modulename fromlist renames modules :
  (∀ e modules',
     modules !! modulename = None →
     import_other modulename fromlist modules = (Fail e, modules') →
     deprecate_import current modulename fromlist renames modules
     = (Fail e, modules')) ∧
  (is_Some (modules !! modulename) →
   deprecate_import current modulename [] renames modules
   = (Done tt, modules)) ∧
  (∀ source objname rest,
     modules !! modulename = Some source →
     Forall (λ n, is_Some (source !! n)) (objname :: rest) →
     modules !! current = None →
     deprecate_import current modulename (objname :: rest) renames modules
     = (Fail (Std (KeyError current)), modules)).
Proof.
  split_and!.
  - intros e modules' Hnone Himport. unfold deprecate_import, __import__.
    by rewrite Hnone, Himport.
  - intros [source Hsource].
    by rewrite (deprecate_import_loaded _ _ _ _ _ source).
  - intros source objname rest Hsource Hall Hcurrent.
    rewrite (deprecate_import_loaded _ _ _ _ _ source) by done.
    apply Forall_cons in Hall as [[obj Hobj] _].
    cbn [deprecate_loop]. rewrite Hsource, Hobj.
    by destruct renames as [[|r rs]|]; cbn [newname_of index lookup];
      rewrite ?Hcurrent.
Qed.

Lemma newname_of_truthy (rs : list string) position objname :
  rs ≠ [] → newname_of (Some rs) position objname = index rs position.
Proof. by destruct rs. Qed.

(** With renames, the installed namespace binds the new names, each to
    the wrapper of the object listed at its position, and leaves the
    other names alone. *)
Lemma installs_renames_lookup current modulename (rs : list string) position
    source fromlist target :
  rs ≠ [] →
  Forall (λ n, is_Some (source !! n)) fromlist →
  (position + length fromlist ≤ length rs)%nat →
  (∀ newname, newname ∉ take (length fromlist) (drop position rs) →
     installs current modulename (Some rs) position source fromlist target
       !! newname
     = target !! newname) ∧
  (NoDup (take (length fromlist) (drop position rs)) →
   ∀ i n obj newname,
     fromlist !! i = Some n → rs !! (position + i)%nat = Some newname →
     source !! n = Some obj →
     installs current modulename (Some rs) position source fromlist target
       !! newname
     = Some (wrapper current modulename obj n)).
Proof.
  intros Hrs. revert position target.
  induction fromlist as [|m fromlist IH]; intros position target Hall Hlen.
  - split; [done | by intros _ i n obj newname ?].
  - apply Forall_cons in Hall as [[obj' Hobj'] Hall]. cbn [length] in Hlen.
    destruct (lookup_lt_is_Some_2 rs position) as [r Hr]; [lia|].
    cbn [installs length].
    rewrite Hobj', (newname_of_truthy rs _ _ Hrs). unfold index. rewrite Hr.
    rewrite (drop_S rs r position Hr). cbn [take].
    destruct (IH (S position)
                (<[r := wrapper current modulename obj' m]> target) Hall)
      as [IHout IHin]; [lia|].
    split.
    + intros newname Hnot. apply not_elem_of_cons in Hnot as [Hne Hnot].
      rewrite IHout by done. by rewrite lookup_insert_ne.
    + intros Hnodup i n obj newname Hi Hnew Hobj.
      apply NoDup_cons in Hnodup as [Hfresh Hnodup].
      destruct i as [|i].
      * rewrite Nat.add_0_r in Hnew. cbn in Hi. simplify_eq.
        rewrite IHout by done. by rewrite lookup_insert_eq.
      * apply (IHin Hnodup i n obj newname); [done | | done].
        by replace (S position + i)%nat with (position + S i)%nat by lia.
Qed.

(** X18: with a non-empty list of renames, each object is installed
    under the new name at its position, wrapped under its old name.  If
    the renames are at least as many as the listed names the call
    returns; if they are fewer, it raises [IndexError] at the first
    position without a new name, the earlier objects being installed by
    then. *)
Theorem deprecate_import_renames current modulename fromlist
    (rs : list string) modules source target :
  current ≠ modulename →
  modules !! modulename = Some source →
  modules !! current = Some target →
  Forall (λ n, is_Some (source !! n)) fromlist →
  rs ≠ [] →
  let served := take (length rs) fromlist in
  ∃ target',
    deprecate_import current modulename fromlist (Some rs) modules
    = (if decide (length fromlist ≤ length rs)%nat then Done tt
       else Fail IndexError,
       <[current := target']> modules) ∧
    (∀ newname, newname ∉ take (length served) rs →
                target' !! newname = target !! newname) ∧
    (NoDup (take (length served) rs) →
     ∀ i n obj newname,
       served !! i = Some n → rs !! i = Some newname →
       source !! n = Some obj →
       target' !! newname = Some (wrapper current modulename obj n)).
Proof.
  intros Hne Hsource Htarget Hall Hrs served.
  exists (installs current modulename (Some rs) 0 source served target).
  assert (Hserved : Forall (λ n, is_Some (source !! n)) served)
    by by apply Forall_take.
  assert (Hlen : (length served ≤ length rs)%nat)
    by (unfold served; rewrite length_take; lia).
  destruct (installs_renames_lookup current modulename rs 0 source served
              target Hrs Hserved) as [Hout Hin]; [lia|].
  rewrite drop_0 in Hout, Hin.
  split_and!; [|done|done].
  rewrite (deprecate_import_loaded _ _ _ _ _ source) by done.
  rewrite <-(take_drop (length rs) fromlist) at 1. fold served.
  rewrite (deprecate_loop_app current modulename (Some rs) 0 served
             (drop (length rs) fromlist) modules source target); try done.
  - case_decide as Hcmp.
    + rewrite drop_ge by done. done.
    + destruct (drop (length rs) fromlist) as [|m rest] eqn:Hdrop.
      { apply (f_equal length) in Hdrop. rewrite length_drop in Hdrop.
        cbn in Hdrop. lia. }
      assert (Hm : is_Some (source !! m)).
      { pose proof (Forall_drop _ (length rs) _ Hall) as Hrest.
        rewrite Hdrop in Hrest. by apply Forall_cons in Hrest as [? _]. }
      destruct Hm as [obj Hobj].
      cbn [deprecate_loop]. rewrite lookup_insert_ne by done.
      rewrite Hsource, Hobj, (newname_of_truthy rs _ _ Hrs).
      unfold index. rewrite lookup_ge_None_2; [done|].
      unfold served. rewrite length_take. lia.
  - intros i n Hi. rewrite (newname_of_truthy rs _ _ Hrs). unfold index.
    apply lookup_lt_Some in Hi.
    destruct (lookup_lt_is_Some_2 rs (0 + i)) as [r ->]; [lia|].
    by exists r.
Qed.

(** X19: a module may deprecate its own names in place: with [current]
    and [modulename] the same module, each turn of the loop reads the
    binding the turn before has written, so a name listed [count] times
    ends up wrapped [count] times, and a call of it warns [count] times
    before doing what the original does. *)
Theorem deprecate_import_in_place (m n : string) obj target modules
    (count : nat) (a : A) :
  modules !! m = Some target →
  target !! n = Some obj →
  let rewrapped := Nat.iter count (λ o, wrapper m m o n) obj in
  deprecate_import m m (replicate count n) None modules
  = (Done tt, <[m := <[n := rewrapped]> target]> modules) ∧
  length (call rewrapped a).1 = (count + length (call obj a).1)%nat ∧
  (call rewrapped a).2 = (call obj a).2.
Proof.
  intros Htarget Hobj rewrapped. split_and!.
  - rewrite (deprecate_import_loaded _ _ _ _ _ target);
      [|done | by apply Forall_replicate; eexists].
    unfold rewrapped. generalize 0%nat as position.
    clear rewrapped. revert obj target modules Htarget Hobj.
    induction count as [|count IH]; intros obj target modules Htarget Hobj
      position.
    + cbn [replicate deprecate_loop].
      change (Nat.iter 0 (λ o, wrapper m m o n) obj) with obj.
      by rewrite (insert_id target n obj Hobj), (insert_id modules m target).
    + cbn [replicate deprecate_loop newname_of].
      rewrite Htarget, Hobj.
      rewrite (IH (wrapper m m obj n) (<[n := wrapper m m obj n]> target));
        [|apply lookup_insert_eq | apply lookup_insert_eq].
      by rewrite !insert_insert_eq, Nat.iter_succ_r.
  - unfold rewrapped. clear. induction count as [|count IH]; [done|].
    rewrite Nat.iter_succ, wrapper_call. cbn [fst length]. by rewrite IH.
  - unfold rewrapped. clear. induction count as [|count IH]; [done|].
    by rewrite Nat.iter_succ, wrapper_call.
Qed.

End DeprecationProperties.

Lemma deprecate_import_installs_witness :
  "bb" ≠ "bb.utils" ∧
  sample_modules !! "bb.utils" = Some {[ "which" := sample_func ]} ∧
  sample_modules !! "bb" = Some ∅ ∧
  ∃ target',
    deprecation.deprecate_import (I := sample_importer) "bb" "bb.utils"
      ["which"] None sample_modules
    = (Done tt, <["bb" := target']> sample_modules) ∧
    ∃ installed, target' !! "which" = Some installed ∧
                 (deprecation.call installed 1).2 = 2.
Proof.
  assert (Hne : "bb" ≠ "bb.utils") by discriminate.
  assert (Hsource : sample_modules !! "bb.utils"
                    = Some {[ "which" := sample_func ]}) by reflexivity.
  assert (Htarget : sample_modules !! "bb" = Some ∅) by reflexivity.
  assert (Hall : Forall (λ n, is_Some (({[ "which" := sample_func ]}
                   : gmap string _) !! n)) ["which"]).
  { constructor; [|constructor]. eexists. reflexivity. }
  split; [exact Hne|]. split; [exact Hsource|]. split; [exact Htarget|].
  destruct (deprecate_import_installs (I := sample_importer) "bb" "bb.utils"
              ["which"] None sample_modules _ _ Hne Hsource Htarget Hall
              (or_introl eq_refl))
    as (target' & Hrun & _ & _ & Hin).
  exists target'. split; [exact Hrun|].
  destruct (Hin "which" sample_func) as (installed & Hlookup & _ & Hcall).
  { left. }
  { reflexivity. }
  exists installed. split; [exact Hlookup|]. by rewrite Hcall.
Defined.

Lemma deprecate_import_missing_attribute_witness :
  "bb" ≠ "bb.utils" ∧
  ({[ "which" := sample_func ]} : gmap string _) !! "nope" = None ∧
  deprecation.import_other (Importer := sample_importer) "bb.utils"
    ["which"; "nope"] sample_modules
  = (Done tt, sample_modules) ∧
  ∃ target',
    deprecation.deprecate_import (I := sample_importer) "bb" "bb.utils"
      ["which"; "nope"] None sample_modules
    = (Fail (Std (AttributeError
         "module 'bb.utils' has no attribute 'nope'")),
       <["bb" := target']> sample_modules) ∧
    is_Some (target' !! "which").
Proof.
  assert (Hne : "bb" ≠ "bb.utils") by discriminate.
  assert (Hsource : sample_modules !! "bb.utils"
                    = Some {[ "which" := sample_func ]}) by reflexivity.
  assert (Htarget : sample_modules !! "bb" = Some ∅) by reflexivity.
  assert (Hall : Forall (λ n, is_Some (({[ "which" := sample_func ]}
                   : gmap string _) !! n)) ["which"]).
  { constructor; [|constructor]. eexists. reflexivity. }
  assert (Hmissing : ({[ "which" := sample_func ]} : gmap string _) !! "nope"
                     = None) by reflexivity.
  assert (Himport : deprecation.import_other (Importer := sample_importer)
                      "bb.utils" ["which"; "nope"] sample_modules
                    = (Done tt, sample_modules)) by reflexivity.
  split; [exact Hne|]. split; [exact Hmissing|]. split; [exact Himport|].
  destruct (deprecate_import_missing_attribute (I := sample_importer) "bb"
              "bb.utils" ["which"] [] "nope" None sample_modules _ _ Hne
              Hsource Htarget Hall Hmissing Himport (or_introl eq_refl))
    as (target' & Hrun & Hin & _).
  exists target'. split; [exact Hrun|].
  rewrite (Hin "which" sample_func); [by eexists | left | reflexivity].
Defined.

Lemma deprecate_import_edges_witness :
  sample_modules !! "bb.nothing" = None ∧
  deprecation.import_other (Importer := sample_importer) "bb.nothing"
    ["which"] sample_modules
  = (Fail (ModuleNotFoundError "bb.nothing"), sample_modules) ∧
  deprecation.deprecate_import (I := sample_importer) "bb" "bb.nothing"
    ["which"] None sample_modules
  = (Fail (ModuleNotFoundError "bb.nothing"), sample_modules).
Proof.
  assert (Hnone : sample_modules !! "bb.nothing" = None) by reflexivity.
  assert (Himport : deprecation.import_other (Importer := sample_importer)
                      "bb.nothing" ["which"] sample_modules
                    = (Fail (ModuleNotFoundError "bb.nothing"),
                       sample_modules)) by reflexivity.
  split; [exact Hnone|]. split; [exact Himport|].
  exact (proj1 (deprecate_import_edges (I := sample_importer) "bb"
                  "bb.nothing" ["which"] None sample_modules)
           _ _ Hnone Himport).
Defined.

Lemma deprecate_import_renames_witness :
  "bb" ≠ "bb.utils" ∧ ["find"] ≠ [] ∧
  ∃ target',
    deprecation.deprecate_import (I := sample_importer) "bb" "bb.utils"
      ["which"; "which"] (Some ["find"]) sample_modules
    = (Fail IndexError, <["bb" := target']> sample_modules).
Proof.
  assert (Hne : "bb" ≠ "bb.utils") by discriminate.
  assert (Hrs : ["find"] ≠ @nil string) by discriminate.
  assert (Hsource : sample_modules !! "bb.utils"
                    = Some {[ "which" := sample_func ]}) by reflexivity.
  assert (Htarget : sample_modules !! "bb" = Some ∅) by reflexivity.
  assert (Hall : Forall (λ n, is_Some (({[ "which" := sample_func ]}
                   : gmap string _) !! n)) ["which"; "which"]).
  { repeat constructor; eexists; reflexivity. }
  split; [exact Hne|]. split; [exact Hrs|].
  destruct (deprecate_import_renames (I := sample_importer) "bb" "bb.utils"
              ["which"; "which"] ["find"] sample_modules _ _ Hne Hsource
              Htarget Hall Hrs)
    as (target' & Hrun & _).
  exists target'. exact Hrun.
Defined.

Lemma deprecate_import_in_place_witness :
  sample_modules !! "bb.utils" = Some {[ "which" := sample_func ]} ∧
  ({[ "which" := sample_func ]} : gmap string _) !! "which"
  = Some sample_func ∧
  length (deprecation.call
            (Nat.iter 2 (λ o, deprecation.wrapper "bb.utils" "bb.utils" o
                                "which") sample_func) 1).1
  = 2%nat.
Proof.
  assert (Hsource : sample_modules !! "bb.utils"
                    = Some {[ "which" := sample_func ]}) by reflexivity.
  assert (Hobj : ({[ "which" := sample_func ]} : gmap string _) !! "which"
                 = Some sample_func) by reflexivity.
  split; [exact Hsource|]. split; [exact Hobj|].
  exact (proj1 (proj2 (deprecate_import_in_place (I := sample_importer)
                         "bb.utils" "which" sample_func _ sample_modules 2 1
                         Hsource Hobj))).
Defined.
